(** * Example scripts for Claude on third-party platforms: a shallow embedding

    The scripts under [examples/claude-3rd-party-platforms] are embedded as
    computations in a small state-and-exception monad.  The state is the
    world a script runs in: what the remote service will answer, the file
    system, the command line, and the chronological trace of what the script
    has done so far (text written to standard output, sleeps, files opened,
    clients built, requests issued).  An exception keeps the state reached
    when it was raised, as in Python. *)

From Stdlib Require Import String Ascii ZArith List Bool Lia DecimalString.
From Stdlib.Strings Require Import Byte.
Import ListNotations.
Local Open Scope list_scope.
Local Open Scope string_scope.
Local Open Scope Z_scope.

(* ===================================================================== *)
(** ** Python values the scripts rely on *)
(* ===================================================================== *)

Module Py.

(** The exception classes the scripts name or can meet, with the base class
    of each ([RateLimitError] derives from [APIStatusError], which derives
    from [APIError], in the vendor SDK). *)
Inductive exn_class : Set :=
| BaseException | SystemExit | KeyboardInterrupt | Exception
| ValueError | IndexError | AttributeError | AssertionError | RuntimeError
| OSError | FileNotFoundError | IsADirectoryError
| AnthropicError | APIError | APIStatusError | RateLimitError.

Definition base (c : exn_class) : option exn_class :=
  match c with
  | BaseException => None
  | SystemExit | KeyboardInterrupt | Exception => Some BaseException
  | ValueError | IndexError | AttributeError | AssertionError
  | RuntimeError | OSError | AnthropicError => Some Exception
  | FileNotFoundError | IsADirectoryError => Some OSError
  | APIError => Some AnthropicError
  | APIStatusError => Some APIError
  | RateLimitError => Some APIStatusError
  end.

Definition class_eqb (c d : exn_class) : bool :=
  match c, d with
  | BaseException, BaseException | SystemExit, SystemExit
  | KeyboardInterrupt, KeyboardInterrupt | Exception, Exception
  | ValueError, ValueError | IndexError, IndexError
  | AttributeError, AttributeError | AssertionError, AssertionError
  | RuntimeError, RuntimeError | OSError, OSError
  | FileNotFoundError, FileNotFoundError
  | IsADirectoryError, IsADirectoryError
  | AnthropicError, AnthropicError | APIError, APIError
  | APIStatusError, APIStatusError | RateLimitError, RateLimitError => true
  | _, _ => false
  end.

(** [issubclass c d]: [d] is [c] or one of its ancestors.  The hierarchy is
    six classes deep at most. *)
Fixpoint issubclass_upto (depth : nat) (c d : exn_class) : bool :=
  class_eqb c d ||
  match depth, base c with
  | S depth', Some b => issubclass_upto depth' b d
  | _, _ => false
  end.

Definition issubclass : exn_class -> exn_class -> bool := issubclass_upto 6.

(** An exception object: its class and its message; [sys.exit(code)] raises
    [SystemExit] carrying the status. *)
Inductive exn : Set :=
| Exn (c : exn_class) (msg : string)
| Exit (code : Z).

Definition class_of (e : exn) : exn_class :=
  match e with
  | Exn c _ => c
  | Exit _ => SystemExit
  end.

(** [str(e)] *)
Definition str_exn (e : exn) : string :=
  match e with
  | Exn _ msg => msg
  | Exit code => NilZero.string_of_int (Z.to_int code)
  end.

Definition isinstance (e : exn) (c : exn_class) : bool :=
  issubclass (class_of e) c.

(** The outcome of a computation: a value, or a raised exception. *)
Inductive Res (A : Type) : Type :=
| Return (a : A)
| Raise (e : exn).
Arguments Return {A} a.
Arguments Raise {A} e.

(** [str(n)] for an integer, as an f-string formats it. *)
Definition str (n : Z) : string := NilZero.string_of_int (Z.to_int n).

(** The newline character. *)
Definition nl : string := String (ascii_of_nat 10) EmptyString.

(** [needle in hay] on strings. *)
Fixpoint contains (needle hay : string) : bool :=
  String.prefix needle hay ||
  match hay with
  | EmptyString => false
  | String _ rest => contains needle rest
  end.

(** [s.lower()].  Strings are byte strings here (UTF-8), and only the ASCII
    capitals are mapped, which is what [str.lower] does on ASCII text. *)
Definition lower_ascii (c : ascii) : ascii :=
  let n := nat_of_ascii c in
  if ((65 <=? n) && (n <=? 90))%nat then ascii_of_nat (n + 32) else c.

Fixpoint lower (s : string) : string :=
  match s with
  | EmptyString => EmptyString
  | String c rest => String (lower_ascii c) (lower rest)
  end.

(** [c in s] for a character. *)
Fixpoint occurs (c : ascii) (s : string) : bool :=
  match s with
  | EmptyString => false
  | String c' rest => Ascii.eqb c' c || occurs c rest
  end.

(** [range(n)] *)
Definition range (n : Z) : list Z := map Z.of_nat (seq 0 (Z.to_nat n)).

(** [d.get(key)] on a dict literal, kept as its list of items. *)
Fixpoint dict_get {V : Type} (key : string) (d : list (string * V)) : option V :=
  match d with
  | [] => None
  | (k, v) :: d' => if String.eqb key k then Some v else dict_get key d'
  end.

(** *** [pathlib]: the final component of a path and its suffix

    [PurePosixPath(p).name] is the last component of [p] once empty and
    ["."] components are dropped, or [""] when none is left.
    [suffix] is [name[i:]] for [i = name.rfind(".")] when
    [0 < i < len(name) - 1], and [""] otherwise. *)

(** [p.split("/")], the current component being accumulated in [cur]. *)
Fixpoint split_slash (p : string) (cur : string) : list string :=
  match p with
  | EmptyString => [cur]
  | String c rest =>
      if Ascii.eqb c "/" then cur :: split_slash rest EmptyString
      else split_slash rest (cur ++ String c EmptyString)
  end.

Definition is_component (c : string) : bool :=
  negb (String.eqb c "") && negb (String.eqb c ".").

Definition name (p : string) : string :=
  last (filter is_component (split_slash p EmptyString)) "".

(** [s[i:]] for [i = s.rfind(".")], when [s] has a dot. *)
Fixpoint from_last_dot (s : string) : option string :=
  match s with
  | EmptyString => None
  | String c rest =>
      match from_last_dot rest with
      | Some t => Some t
      | None => if Ascii.eqb c "." then Some s else None
      end
  end.

Definition suffix_of_name (nm : string) : string :=
  match nm with
  | EmptyString => ""
  | String _ rest =>            (* 0 < i: the last dot is not the first character *)
      match from_last_dot rest with
      | Some t => if (String.length t <=? 1)%nat then "" else t   (* i < len - 1 *)
      | None => ""
      end
  end.

Definition suffix (p : string) : string := suffix_of_name (name p).

(** *** [base64.standard_b64encode] (RFC 4648, section 4) *)

Definition b64_alphabet : string :=
  "ABCDEFGHIJKLMNOPQRSTUVWXYZabcdefghijklmnopqrstuvwxyz0123456789+/".

Definition b64_char (n : Z) : ascii :=
  match String.get (Z.to_nat n) b64_alphabet with
  | Some c => c
  | None => "="%char
  end.

Definition sextet (group : Z) (i : Z) : ascii :=
  b64_char (Z.land (Z.shiftr group (18 - 6 * i)) 63).

Definition byteZ (b : byte) : Z := Z.of_N (Byte.to_N b).

Fixpoint standard_b64encode (data : list byte) : string :=
  match data with
  | [] => ""
  | [a] =>
      let g := Z.shiftl (byteZ a) 16 in
      String (sextet g 0) (String (sextet g 1) "==")
  | [a; b] =>
      let g := Z.lor (Z.shiftl (byteZ a) 16) (Z.shiftl (byteZ b) 8) in
      String (sextet g 0) (String (sextet g 1) (String (sextet g 2) "="))
  | a :: b :: c :: rest =>
      let g := Z.lor (Z.lor (Z.shiftl (byteZ a) 16) (Z.shiftl (byteZ b) 8)) (byteZ c) in
      String (sextet g 0) (String (sextet g 1) (String (sextet g 2)
        (String (sextet g 3) (standard_b64encode rest))))
  end.

(** The decoder, for text without line breaks: the inverse the encoder is
    checked against. *)
Fixpoint index_from (c : ascii) (s : string) (i : Z) : option Z :=
  match s with
  | EmptyString => None
  | String c' rest => if Ascii.eqb c' c then Some i else index_from c rest (i + 1)
  end.
Definition b64_index (c : ascii) : option Z := index_from c b64_alphabet 0.

Definition byte_of (v : Z) : option byte := Byte.of_N (Z.to_N v).

Fixpoint standard_b64decode (s : string) : option (list byte) :=
  match s with
  | EmptyString => Some []
  | String c0 (String c1 (String c2 (String c3 rest))) =>
      match b64_index c0, b64_index c1 with
      | Some s0, Some s1 =>
          match byte_of (s0 * 4 + s1 / 16) with
          | None => None
          | Some b0 =>
              if Ascii.eqb c2 "=" then
                if Ascii.eqb c3 "=" && String.eqb rest "" && (s1 mod 16 =? 0)
                then Some [b0] else None
              else
                match b64_index c2 with
                | None => None
                | Some s2 =>
                    match byte_of ((s1 mod 16) * 16 + s2 / 4) with
                    | None => None
                    | Some b1 =>
                        if Ascii.eqb c3 "=" then
                          if String.eqb rest "" && (s2 mod 4 =? 0)
                          then Some [b0; b1] else None
                        else
                          match b64_index c3 with
                          | None => None
                          | Some s3 =>
                              match byte_of ((s2 mod 4) * 64 + s3),
                                    standard_b64decode rest with
                              | Some b2, Some bs => Some (b0 :: b1 :: b2 :: bs)
                              | _, _ => None
                              end
                          end
                    end
                end
          end
      | _, _ => None
      end
  | _ => None
  end.

(** [s.strip()]: whitespace is removed at both ends.  As for [lower], the
    text is bytes and the whitespace is the ASCII one of [str.isspace]:
    tab to carriage return, the four separators 0x1c to 0x1f, and space. *)
Definition is_space (c : ascii) : bool :=
  let n := nat_of_ascii c in
  (((9 <=? n) && (n <=? 13)) || ((28 <=? n) && (n <=? 32)))%nat.

Fixpoint lstrip (s : string) : string :=
  match s with
  | EmptyString => EmptyString
  | String c rest => if is_space c then lstrip rest else s
  end.

Fixpoint rstrip (s : string) : string :=
  match s with
  | EmptyString => EmptyString
  | String c rest =>
      match rstrip rest with
      | EmptyString => if is_space c then EmptyString else String c EmptyString
      | kept => String c kept
      end
  end.

Definition strip (s : string) : string := rstrip (lstrip s).

(** [s * n] *)
Fixpoint times (s : string) (n : nat) : string :=
  match n with
  | O => EmptyString
  | S n' => s ++ times s n'
  end.

(** [str(x)] for an optional string: [None] prints as its name. *)
Definition str_optional (x : option string) : string :=
  match x with
  | Some text => text
  | None => "None"
  end.

End Py.

(* ===================================================================== *)
(** ** The vendor SDK surface the scripts use *)
(* ===================================================================== *)

Module Anthropic.

Inductive Role : Set := user | assistant.

(** Content blocks of a request message. *)
Inductive BlockParam : Set :=
| TextParam (text : string)
| ImageParam (source_type : string) (media_type : string) (data : string).

Inductive Content : Set :=
| Str (text : string)
| Blocks (blocks : list BlockParam).

Record MessageParam : Set := { role : Role; content : Content }.

Record Request : Set := {
  model : string;
  max_tokens : Z;
  system : option string;
  messages : list MessageParam
}.

(** Content blocks of a response. *)
Inductive ContentBlock : Set :=
| TextBlock (text : string)
| ToolUseBlock (id : string) (tool : string) (input : string).

Record Usage : Set := { input_tokens : Z; output_tokens : Z }.

(** A response; [response_content] is its [content] field. *)
Record Message : Set := {
  response_content : list ContentBlock;
  usage : Usage;
  stop_reason : option string
}.

(** The events of a streamed response. *)
Inductive Delta : Set :=
| TextDelta (text : string)
| InputJsonDelta (partial_json : string).

Inductive StreamEvent : Set :=
| message_start (message : Message)
| content_block_start (index : nat) (content_block : ContentBlock)
| content_block_delta (index : nat) (delta : Delta)
| content_block_stop (index : nat)
| message_delta (stop : option string) (out_tokens : Z)
| message_stop.

(** What the remote service does with the [k]-th request it receives
    (counting from 0): answer, or fail with an exception. *)
Record Remote : Type := {
  on_create : nat -> Request -> Py.Res Message;
  on_stream : nat -> Request -> Py.Res (list StreamEvent)
}.

(** A client object ([AnthropicBedrock(aws_region=...)] or
    [AnthropicVertex(project_id=..., region=...)]). *)
Inductive Client : Set :=
| Bedrock (aws_region : string)
| Vertex (project_id : string) (region : string).

(** The stream manager's state: the events not yet consumed and the
    message snapshot accumulated from the consumed ones. *)
Record MessageStream : Set := {
  pending : list StreamEvent;
  snapshot : option Message
}.

End Anthropic.

(* ===================================================================== *)
(** ** The world and the monad of scripts *)
(* ===================================================================== *)

Module Script.
Import Py Anthropic.

Inductive node : Set :=
| File (data : list byte)
| Dir.

Inductive event : Set :=
| Stdout (text : string)              (* text written to standard output *)
| Sleep (seconds : Z)                 (* time.sleep *)
| OpenRead (path : string)            (* open(path, "rb") *)
| NewClient (c : Client)              (* client construction *)
| MessagesCreate (req : Request)      (* client.messages.create *)
| MessagesStream (req : Request).     (* client.messages.stream *)

Record World : Type := {
  remote : Remote;                    (* the service behind the clients *)
  fs : string -> option node;         (* what a path designates, if anything *)
  argv : list string;                 (* sys.argv *)
  ncalls : nat;                       (* requests issued so far *)
  trace : list event                  (* what has happened, oldest first *)
}.

Definition log (ev : event) (w : World) : World :=
  {| remote := remote w; fs := fs w; argv := argv w;
     ncalls := ncalls w; trace := trace w ++ [ev] |}.

Definition count_call (w : World) : World :=
  {| remote := remote w; fs := fs w; argv := argv w;
     ncalls := S (ncalls w); trace := trace w |}.

(** The world [w] after the events [evs] and [k] more requests. *)
Definition advance (w : World) (evs : list event) (k : nat) : World :=
  {| remote := remote w; fs := fs w; argv := argv w;
     ncalls := (ncalls w + k)%nat; trace := trace w ++ evs |}.

(** The events of [w'] that came after those of [w]. *)
Definition since (w w' : World) : list event :=
  skipn (List.length (trace w)) (trace w').

(** Computations over a state [S]: the outcome and the state reached. *)
Definition M (S A : Type) : Type := S -> Res A * S.

Definition ret {S A} (a : A) : M S A := fun s => (Return a, s).

Definition bind {S A B} (m : M S A) (k : A -> M S B) : M S B :=
  fun s =>
    match m s with
    | (Return a, s') => k a s'
    | (Raise e, s') => (Raise e, s')
    end.

Definition raise {S A} (e : exn) : M S A := fun s => (Raise e, s).

Declare Scope script_scope.
Delimit Scope script_scope with script.
Notation "x <- m ;; k" := (bind m (fun x => k))
  (at level 61, m at next level, right associativity) : script_scope.
Notation "m ;; k" := (bind m (fun _ => k))
  (at level 61, right associativity) : script_scope.
Local Open Scope script_scope.

(** [try: body  except C1: h1  except C2: h2 ...]: the first clause one of
    whose classes the exception is an instance of handles it; an exception
    no clause matches, or one a handler raises, propagates. *)
Definition handles (e : exn) (clause_classes : list exn_class) : bool :=
  existsb (isinstance e) clause_classes.

Definition try_ {S A} (body : M S A)
    (clauses : list (list exn_class * (exn -> M S A))) : M S A :=
  fun s =>
    match body s with
    | (Return a, s') => (Return a, s')
    | (Raise e, s') =>
        match find (fun cl => handles e (fst cl)) clauses with
        | Some cl => snd cl e s'
        | None => (Raise e, s')
        end
    end.

(** Primitives on the world. *)
Definition emit (ev : event) : M World unit := fun w => (Return tt, log ev w).

(** [print(s)] and [print(s, end=e, flush=True)] *)
Definition print (s : string) : M World unit := emit (Stdout (s ++ nl)).
Definition print_end (s e : string) : M World unit := emit (Stdout (s ++ e)).

Definition sleep (seconds : Z) : M World unit := emit (Sleep seconds).

Definition sys_exit {A} (code : Z) : M World A := raise (Exit code).

Definition sys_argv : M World (list string) := fun w => (Return (argv w), w).

(** Whether the path [p] exists in [w]: [Path("")] is the current
    directory. *)
Definition exists_at (w : World) (p : string) : bool :=
  match fs w (if String.eqb p "" then "." else p) with
  | Some _ => true
  | None => false
  end.

(** [Path(p).exists()] *)
Definition Path_exists (p : string) : M World bool :=
  fun w => (Return (exists_at w p), w).

(** [with open(p, "rb") as f: f.read()] *)
Definition read_binary (p : string) : M World (list byte) :=
  fun w =>
    match fs w p with
    | Some (File data) => (Return data, log (OpenRead p) w)
    | Some Dir =>
        (Raise (Exn IsADirectoryError ("[Errno 21] Is a directory: '" ++ p ++ "'")),
         log (OpenRead p) w)
    | None =>
        (Raise (Exn FileNotFoundError
                  ("[Errno 2] No such file or directory: '" ++ p ++ "'")),
         log (OpenRead p) w)
    end.

Definition AnthropicBedrock (aws_region : string) : M World Client :=
  emit (NewClient (Bedrock aws_region)) ;; ret (Bedrock aws_region).

Definition AnthropicVertex (project_id region : string) : M World Client :=
  emit (NewClient (Vertex project_id region)) ;; ret (Vertex project_id region).

(** [client.messages.create(...)]: the request goes out and the service
    answers it as its [ncalls]-th request. *)
Definition messages_create (client : Client) (req : Request) : M World Message :=
  fun w =>
    (on_create (remote w) (ncalls w) req, count_call (log (MessagesCreate req) w)).

(** [client.messages.stream(...)] entered as a context manager. *)
Definition messages_stream (client : Client) (req : Request) : M World MessageStream :=
  fun w =>
    (match on_stream (remote w) (ncalls w) req with
     | Return events => Return {| pending := events; snapshot := None |}
     | Raise e => Raise e
     end, count_call (log (MessagesStream req) w)).

(** [response.content[0].text] *)
Definition first_text {S} (response : Message) : M S string :=
  match response_content response with
  | [] => raise (Exn IndexError "list index out of range")
  | TextBlock text :: _ => ret text
  | ToolUseBlock _ _ _ :: _ =>
      raise (Exn AttributeError "'ToolUseBlock' object has no attribute 'text'")
  end.

(** The exit status of the interpreter for a script's outcome. *)
Definition exit_status {A} (r : Res A) : Z :=
  match r with
  | Return _ => 0
  | Raise (Exit code) => code
  | Raise (Exn _ _) => 1
  end.

(** Projections of a trace. *)
Definition is_network (ev : event) : bool :=
  match ev with
  | NewClient _ | MessagesCreate _ | MessagesStream _ => true
  | _ => false
  end.

Definition network (t : list event) : list event := filter is_network t.

Fixpoint sleeps (t : list event) : list Z :=
  match t with
  | [] => []
  | Sleep n :: t' => n :: sleeps t'
  | _ :: t' => sleeps t'
  end.

Fixpoint stdout (t : list event) : string :=
  match t with
  | [] => ""
  | Stdout s :: t' => s ++ stdout t'
  | _ :: t' => stdout t'
  end.

(** The outcome of a script that goes on to read [content[0].text] of
    what the remote call gave. *)
Definition first_text_outcome (r : Res Message) : Res unit :=
  match r with
  | Raise e => Raise e
  | Return m =>
      match response_content m with
      | [] => Raise (Exn IndexError "list index out of range")
      | TextBlock _ :: _ => Return tt
      | ToolUseBlock _ _ _ :: _ =>
          Raise (Exn AttributeError "'ToolUseBlock' object has no attribute 'text'")
      end
  end.

(** A trace made of writes to standard output only. *)
Definition only_prints (t : list event) : bool :=
  forallb (fun ev => match ev with Stdout _ => true | _ => false end) t.

End Script.

(* ===================================================================== *)
(** ** bedrock_error_handling.py *)
(* ===================================================================== *)

Module bedrock_error_handling.
Import Py Anthropic Script.
Local Open Scope script_scope.

Definition request : Request :=
  {| model := "global.anthropic.claude-sonnet-4-5-20250929-v1:0";
     max_tokens := 256;
     system := None;
     messages := [ {| role := user;
                      content := Str "Explain quantum computing in 2 sentences" |} ] |}.

(** The body of [for attempt in range(max_retries)], on the attempts left.
    [return] leaves the function with the response, [continue] goes on
    with the next attempt, and the statement after the loop is reached when
    no attempt is left. *)
Fixpoint retry_loop (client : Client) (max_retries : Z) (attempts : list Z)
  : M World Message :=
  match attempts with
  | [] => raise (Exn Exception "Failed after max retries")
  | attempt :: rest =>
      try_
        (print ("Attempt " ++ str (attempt + 1) ++ "/" ++ str max_retries ++ "...") ;;
         messages_create client request)
        [ ([RateLimitError], fun e =>
             if attempt <? max_retries - 1 then
               let wait_time := 2 ^ attempt in
               print ("⚠️  Rate limited. Waiting " ++ str wait_time ++ "s before retry...") ;;
               sleep wait_time ;;
               retry_loop client max_retries rest
             else
               print "❌ Max retries exceeded due to rate limiting" ;;
               raise e);
          ([APIError], fun e =>
             let error_msg := str_exn e in
             let api_error := print ("❌ API Error: " ++ str_exn e) ;; raise e in
             if contains "ThrottlingException" error_msg then
               if attempt <? max_retries - 1 then
                 let wait_time := 2 ^ attempt in
                 print ("⚠️  Throttled. Waiting " ++ str wait_time ++ "s before retry...") ;;
                 sleep wait_time ;;
                 retry_loop client max_retries rest
               else api_error
             else api_error);
          ([Exception], fun e =>
             print ("❌ Unexpected error: " ++ str_exn e) ;;
             raise e) ]
  end.

Definition call_with_retry (client : Client) (max_retries : Z) : M World Message :=
  retry_loop client max_retries (range max_retries).

Definition main : M World unit :=
  client <- AnthropicBedrock "us-west-2" ;;
  print ("🔷 AWS Bedrock - Error Handling with Retries" ++ nl) ;;
  try_
    (response <- call_with_retry client 3 ;;
     text <- first_text response ;;
     print (nl ++ "✅ Success!" ++ nl ++ text ++ nl))
    [ ([Exception], fun e => print (nl ++ "❌ Failed: " ++ str_exn e)) ].

(** How an exception raised by the remote call is classified by the
    [except] clauses. *)
Definition is_rate_limit (e : exn) : bool := isinstance e RateLimitError.

Definition is_throttling (e : exn) : bool :=
  negb (isinstance e RateLimitError) && isinstance e APIError &&
  contains "ThrottlingException" (str_exn e).

(** An error the loop answers with a backoff when attempts remain, and an
    error that is neither a rate-limit error nor an API error whose message
    has the throttling marker. *)
Definition retryable (e : exn) : bool := is_rate_limit e || is_throttling e.

Definition fatal (e : exn) : bool :=
  negb (isinstance e RateLimitError) &&
  negb (isinstance e APIError && contains "ThrottlingException" (str_exn e)).

(** The calls and sleeps of a trace, in order: [inl tt] for the remote call
    and [inr s] for a sleep of [s] seconds. *)
Fixpoint timeline (t : list event) : list (unit + Z) :=
  match t with
  | [] => []
  | MessagesCreate _ :: t' => inl tt :: timeline t'
  | Sleep s :: t' => inr s :: timeline t'
  | _ :: t' => timeline t'
  end.

(** The calls and sleeps of attempts that are each retried after a sleep
    of [2 ^ attempt] seconds. *)
Definition backoffs (attempts : list Z) : list (unit + Z) :=
  flat_map (fun k => [inl tt; inr (2 ^ k)]) attempts.

(** The sleeps that answer a throttling-marked API error: those announced
    by the message of that branch. *)
Fixpoint throttle_sleeps (t : list event) : list Z :=
  match t with
  | Stdout msg :: ((Sleep s :: _) as t') =>
      if String.prefix "⚠️  Throttled." msg then s :: throttle_sleeps t'
      else throttle_sleeps t'
  | _ :: t' => throttle_sleeps t'
  | [] => []
  end.

End bedrock_error_handling.

(* ===================================================================== *)
(** ** bedrock_vision.py *)
(* ===================================================================== *)

Module bedrock_vision.
Import Py Anthropic Script.
Local Open Scope script_scope.

Definition media_types : list (string * string) :=
  [ (".jpg", "image/jpeg");
    (".jpeg", "image/jpeg");
    (".png", "image/png");
    (".gif", "image/gif");
    (".webp", "image/webp") ].

Definition encode_image (image_path : string) : M World (string * string) :=
  found <- Path_exists image_path ;;
  if negb found then
    raise (Exn FileNotFoundError ("Image file not found: " ++ image_path))
  else
    let extension := lower (suffix image_path) in
    match dict_get extension media_types with
    | None => raise (Exn ValueError ("Unsupported image type: " ++ extension))
    | Some media_type =>
        data <- read_binary image_path ;;
        let image_data := standard_b64encode data in   (* ASCII, so .decode("utf-8") keeps it *)
        ret (image_data, media_type)
    end.

Definition request (image_data media_type : string) : Request :=
  {| model := "global.anthropic.claude-sonnet-4-5-20250929-v1:0";
     max_tokens := 512;
     system := None;
     messages :=
       [ {| role := user;
            content := Blocks
              [ ImageParam "base64" media_type image_data;
                TextParam ("Describe this image in detail. " ++
                           "What do you see? What are the main elements?") ] |} ] |}.

Definition main : M World unit :=
  args <- sys_argv ;;
  if (List.length args <? 2)%nat then
    print "Usage: python bedrock_vision.py <path_to_image>" ;;
    print (nl ++ "Example: python bedrock_vision.py /path/to/image.png") ;;
    sys_exit 1
  else
    match nth_error args 1 with
    | None => raise (Exn IndexError "list index out of range")
    | Some image_path =>
        print ("🔷 AWS Bedrock - Vision/Image Processing" ++ nl) ;;
        print ("Loading image: " ++ image_path) ;;
        encoded <- try_ (encode_image image_path)
                     [ ([FileNotFoundError; ValueError], fun e =>
                          print ("❌ Error: " ++ str_exn e) ;;
                          sys_exit 1) ] ;;
        let (image_data, media_type) := (encoded : string * string) in
        client <- AnthropicBedrock "us-west-2" ;;
        print ("Analyzing image with Claude..." ++ nl) ;;
        response <- messages_create client (request image_data media_type) ;;
        print ("✅ Analysis:" ++ nl) ;;
        text <- first_text response ;;
        print text ;;
        print (nl ++ "📊 Token Usage:") ;;
        print ("  Input tokens: " ++ str (input_tokens (usage response))) ;;
        print ("  Output tokens: " ++ str (output_tokens (usage response)))
    end.

(** The extension [encode_image] looks up, and the fixed supported set. *)
Definition extension (image_path : string) : string := lower (suffix image_path).

Definition supported (ext : string) : bool :=
  existsb (String.eqb ext) [".jpg"; ".jpeg"; ".png"; ".gif"; ".webp"].

(** The media type in the outcome of [encode_image]. *)
Definition media_type_of (r : Res (string * string)) : Res string :=
  match r with
  | Return (_, media_type) => Return media_type
  | Raise e => Raise e
  end.

End bedrock_vision.

(* ===================================================================== *)
(** ** bedrock_conversation.py *)
(* ===================================================================== *)

Module bedrock_conversation.
Import Py Anthropic Script.
Local Open Scope script_scope.

Record ChatSession : Set := {
  client : Client;
  conversation_history : list MessageParam;
  session_model : string;
  system_prompt : string
}.

(** A method runs on the session object and the world. *)
Definition Method (A : Type) : Type := M (ChatSession * World) A.

Definition in_world {A} (m : M World A) : Method A :=
  fun st => let (r, w') := m (snd st) in (r, (fst st, w')).

Definition self : Method ChatSession := fun st => (Return (fst st), st).

(** The session with its history replaced by [h]. *)
Definition with_history (s : ChatSession) (h : list MessageParam) : ChatSession :=
  {| client := client s;
     conversation_history := h;
     session_model := session_model s;
     system_prompt := system_prompt s |}.

(** [self.conversation_history.append(msg)] *)
Definition history_append (msg : MessageParam) : Method unit :=
  fun st =>
    (Return tt,
     (with_history (fst st) (conversation_history (fst st) ++ [msg])%list, snd st)).

(** [ChatSession.__init__] *)
Definition init (aws_region : string) : M World ChatSession :=
  c <- AnthropicBedrock aws_region ;;
  ret {| client := c;
         conversation_history := [];
         session_model := "global.anthropic.claude-sonnet-4-5-20250929-v1:0";
         system_prompt :=
           "You are a helpful assistant. Be concise and clear in your responses." |}.

Definition chat (user_message : string) : Method string :=
  history_append {| role := user; content := Str user_message |} ;;
  s <- self ;;
  response <- in_world (messages_create (client s)
                {| model := session_model s;
                   max_tokens := 512;
                   system := Some (system_prompt s);
                   messages := conversation_history s |}) ;;
  assistant_message <- first_text response ;;
  history_append {| role := assistant; content := Str assistant_message |} ;;
  ret assistant_message.

(** The history entry for [text] said by [r]. *)
Definition said (r : Role) (text : string) : MessageParam :=
  {| role := r; content := Str text |}.

(** The request [chat] issues for [user_message] on the session [s]. *)
Definition chat_request (s : ChatSession) (user_message : string) : Request :=
  {| model := session_model s;
     max_tokens := 512;
     system := Some (system_prompt s);
     messages := (conversation_history s ++
                  [ {| role := user; content := Str user_message |} ])%list |}.

(** [n] calls of [chat] in a row, one per user message, stopping at the
    first that raises; the replies of the calls that returned. *)
Fixpoint chats (user_messages : list string) : Method (list string) :=
  match user_messages with
  | [] => ret []
  | u :: us =>
      reply <- chat u ;;
      replies <- chats us ;;
      ret (reply :: replies)
  end.

(** The history that [n] exchanges build. *)
Fixpoint exchanges (turns : list (string * string)) : list MessageParam :=
  match turns with
  | [] => []
  | (u, a) :: turns' =>
      {| role := user; content := Str u |} ::
      {| role := assistant; content := Str a |} :: exchanges turns'
  end.

Definition role_eqb (r r' : Role) : bool :=
  match r, r' with
  | user, user | assistant, assistant => true
  | _, _ => false
  end.

(** Roles alternate user/assistant, starting with [first]. *)
Fixpoint alternates (first : Role) (h : list MessageParam) : bool :=
  match h with
  | [] => true
  | m :: h' =>
      role_eqb (role m) first &&
      alternates (match first with user => assistant | assistant => user end) h'
  end.

(** *** [show_history] and the interactive loop of [main] *)

Section Display.

(** How an f-string shows a content that is a list of blocks: Python's
    [repr] of the list, which no entry built by [chat] needs. *)
Variable repr_blocks : list BlockParam -> string.

Definition format_content (c : Content) : string :=
  match c with
  | Str text => text
  | Blocks blocks => repr_blocks blocks
  end.

(** The body of [for i, msg in enumerate(self.conversation_history, 1)],
    from index [i] on. *)
Fixpoint show_messages (i : Z) (history : list MessageParam) : M World unit :=
  match history with
  | [] => ret tt
  | msg :: rest =>
      let who := match role msg with
                 | user => "👤 You"
                 | assistant => "🤖 Claude"
                 end in
      print (nl ++ str i ++ ". " ++ who ++ ":") ;;
      print ("   " ++ format_content (content msg)) ;;
      show_messages (i + 1) rest
  end.

Definition show_history : Method unit :=
  s <- self ;;
  in_world
    (print (nl ++ "📝 Conversation History:") ;;
     print (times "=" 60) ;;
     show_messages 1 (conversation_history s) ;;
     print (nl ++ times "=" 60)).

(** How the loop of [main] stands when the lines typed so far are used up:
    it has left through [break], or it is inside [input()] (which blocks at
    a terminal, and raises [EOFError], caught by nothing, on a closed
    standard input). *)
Inductive loop_end : Set := Left | Waiting.

(** [while True: ...] on the lines the user types, the line break of each
    already removed as [input()] does. *)
Fixpoint chat_loop (lines : list string) : Method loop_end :=
  in_world (print_end "You: " "") ;;
  match lines with
  | [] => ret Waiting
  | line :: rest =>
      let user_input := strip line in
      if String.eqb user_input "" then chat_loop rest
      else if String.eqb (lower user_input) "quit" then
        in_world (print (nl ++ "👋 Goodbye!")) ;;
        ret Left
      else if String.eqb (lower user_input) "history" then
        show_history ;;
        chat_loop rest
      else
        in_world (print_end (nl ++ "🤖 Claude: ") "") ;;
        response <- chat user_input ;;
        in_world (print (response ++ nl)) ;;
        chat_loop rest
  end.

Definition main (lines : list string) : M World loop_end :=
  print ("🔷 AWS Bedrock - Multi-turn Conversation" ++ nl) ;;
  print ("Type 'quit' to exit, 'history' to show conversation history" ++ nl) ;;
  session <- init "us-west-2" ;;
  print "✅ Connected to Claude on Bedrock" ;;
  print ("Start chatting (type 'quit' to exit):" ++ nl) ;;
  fun w => let (r, st) := chat_loop lines (session, w) in (r, snd st).

End Display.



End bedrock_conversation.

(* ===================================================================== *)
(** ** The SDK's stream manager, as the streaming scripts use it *)
(* ===================================================================== *)

Module Streaming.
Import Py Anthropic Script.
Local Open Scope script_scope.

(** [content[index] = f(content[index])]; [None] when [index] is out of
    range, where Python raises [IndexError]. *)
Fixpoint update_block (index : nat) (f : ContentBlock -> ContentBlock)
    (content : list ContentBlock) : option (list ContentBlock) :=
  match index, content with
  | _, [] => None
  | O, b :: bs => Some (f b :: bs)
  | S i, b :: bs =>
      match update_block i f bs with
      | Some bs' => Some (b :: bs')
      | None => None
      end
  end.

Definition apply_delta (d : Delta) (b : ContentBlock) : ContentBlock :=
  match b, d with
  | TextBlock text, TextDelta t => TextBlock (text ++ t)
  | ToolUseBlock id tool input, InputJsonDelta j => ToolUseBlock id tool (input ++ j)
  | _, _ => b
  end.

Definition with_content (m : Message) (c : list ContentBlock) : Message :=
  {| response_content := c; usage := usage m; stop_reason := stop_reason m |}.

(** The SDK's accumulation of one event into the message snapshot. *)
Definition accumulate_event (ev : StreamEvent) (current_snapshot : option Message)
  : Res Message :=
  match current_snapshot with
  | None =>
      match ev with
      | message_start message => Return message
      | _ => Raise (Exn RuntimeError "Unexpected event order")
      end
  | Some m =>
      match ev with
      | content_block_start _ content_block =>
          Return (with_content m (response_content m ++ [content_block])%list)
      | content_block_delta index delta =>
          match update_block index (apply_delta delta) (response_content m) with
          | Some c => Return (with_content m c)
          | None => Raise (Exn IndexError "list index out of range")
          end
      | message_delta stop out_tokens =>
          Return {| response_content := response_content m;
                    usage := {| input_tokens := input_tokens (usage m);
                                output_tokens := out_tokens |};
                    stop_reason := stop |}
      | _ => Return m
      end
  end.

(** [for text in stream.text_stream: body(text)]: each event is folded into
    the snapshot as it is read, and the text of a text delta is yielded to
    the loop body. *)
Fixpoint text_stream_events (body : string -> M World unit)
    (events : list StreamEvent) (current_snapshot : option Message)
  : M World MessageStream :=
  match events with
  | [] => ret {| pending := []; snapshot := current_snapshot |}
  | ev :: rest =>
      match accumulate_event ev current_snapshot with
      | Raise e => raise e
      | Return m =>
          match ev with
          | content_block_delta _ (TextDelta text) => body text
          | _ => ret tt
          end ;;
          text_stream_events body rest (Some m)
      end
  end.

Definition for_text_stream (stream : MessageStream) (body : string -> M World unit)
  : M World MessageStream :=
  text_stream_events body (pending stream) (snapshot stream).

(** [stream.get_final_message()]: what is left of the stream is consumed,
    and the snapshot is the final message. *)
Definition get_final_message (stream : MessageStream) : M World Message :=
  done <- for_text_stream stream (fun _ => ret tt) ;;
  match snapshot done with
  | Some m => ret m
  | None => raise (Exn AssertionError "")
  end.

(** The text fragments a sequence of events delivers, in arrival order. *)
Fixpoint fragments (events : list StreamEvent) : list string :=
  match events with
  | [] => []
  | content_block_delta _ (TextDelta text) :: rest => text :: fragments rest
  | _ :: rest => fragments rest
  end.

(** The full text of a message: the text of its text blocks, in order. *)
Fixpoint full_text (content : list ContentBlock) : string :=
  match content with
  | [] => ""
  | TextBlock text :: rest => text ++ full_text rest
  | ToolUseBlock _ _ _ :: rest => full_text rest
  end.

(** The concatenation of text fragments, in order. *)
Fixpoint join (texts : list string) : string :=
  match texts with
  | [] => ""
  | t :: rest => t ++ join rest
  end.

(** What [print(text, end="", flush=True)] writes for each fragment. *)
Definition written (texts : list string) : list event :=
  map (fun text => Stdout (text ++ "")) texts.

Definition is_text_block (b : ContentBlock) : bool :=
  match b with
  | TextBlock _ => true
  | ToolUseBlock _ _ _ => false
  end.

(** The events that deliver [texts] as one text block of the message
    started as [m0]. *)
Definition one_text_block (m0 : Message) (texts : list string) : list StreamEvent :=
  ([message_start m0; content_block_start 0 (TextBlock "")] ++
   map (fun text => content_block_delta 0 (TextDelta text)) texts ++
   [content_block_stop 0; message_delta (Some "end_turn") 0; message_stop])%list.

(** The event protocol of the service: after [message_start], whose message
    has no content yet, blocks are streamed one at a time; a text block
    starts empty, and a text delta belongs to the text block started last. *)
Fixpoint blocks_in_order (nblocks : nat) (last_is_text : bool)
    (events : list StreamEvent) : bool :=
  match events with
  | [] => true
  | message_start _ :: _ => false
  | content_block_start _ (TextBlock text) :: rest =>
      String.eqb text "" && blocks_in_order (S nblocks) true rest
  | content_block_start _ (ToolUseBlock _ _ _) :: rest =>
      blocks_in_order (S nblocks) false rest
  | content_block_delta index (TextDelta _) :: rest =>
      last_is_text && Nat.eqb (S index) nblocks &&
      blocks_in_order nblocks last_is_text rest
  | content_block_delta index (InputJsonDelta _) :: rest =>
      Nat.ltb index nblocks && blocks_in_order nblocks last_is_text rest
  | _ :: rest => blocks_in_order nblocks last_is_text rest
  end.

Definition protocol (events : list StreamEvent) : bool :=
  match events with
  | message_start m :: rest =>
      match response_content m with
      | [] => blocks_in_order 0 false rest
      | _ :: _ => false
      end
  | _ => false
  end.

End Streaming.

(* ===================================================================== *)
(** ** bedrock_streaming.py and vertex_ai_streaming.py *)
(* ===================================================================== *)

Module bedrock_streaming.
Import Py Anthropic Script Streaming.
Local Open Scope script_scope.

Definition prompt : string := "Write a haiku about artificial intelligence".

Definition request : Request :=
  {| model := "global.anthropic.claude-sonnet-4-5-20250929-v1:0";
     max_tokens := 256;
     system := None;
     messages := [ {| role := user; content := Str prompt |} ] |}.

Definition main : M World unit :=
  client <- AnthropicBedrock "us-west-2" ;;
  print ("🔷 AWS Bedrock - Streaming Response" ++ nl) ;;
  print ("Prompt: " ++ prompt ++ nl) ;;
  print ("Response (streaming):" ++ nl) ;;
  stream <- messages_stream client request ;;
  stream <- for_text_stream stream (fun text => print_end text "") ;;
  final_message <- get_final_message stream ;;
  print (nl ++ nl ++ "📊 Token Usage:") ;;
  print ("  Input tokens: " ++ str (input_tokens (usage final_message))) ;;
  print ("  Output tokens: " ++ str (output_tokens (usage final_message))).

End bedrock_streaming.

Module vertex_ai_streaming.
Import Py Anthropic Script Streaming.
Local Open Scope script_scope.

Definition prompt : string := "Write a limerick about machine learning".

Definition request : Request :=
  {| model := "claude-sonnet-4-5@20250929";
     max_tokens := 256;
     system := None;
     messages := [ {| role := user; content := Str prompt |} ] |}.

Definition main : M World unit :=
  client <- AnthropicVertex "YOUR_PROJECT_ID" "global" ;;
  print ("🔵 Google Vertex AI - Streaming Response" ++ nl) ;;
  print ("Prompt: " ++ prompt ++ nl) ;;
  print ("Response (streaming):" ++ nl) ;;
  stream <- messages_stream client request ;;
  stream <- for_text_stream stream (fun text => print_end text "") ;;
  final_message <- get_final_message stream ;;
  print (nl ++ nl ++ "📊 Token Usage:") ;;
  print ("  Input tokens: " ++ str (input_tokens (usage final_message))) ;;
  print ("  Output tokens: " ++ str (output_tokens (usage final_message))).

End vertex_ai_streaming.

(* ===================================================================== *)
(** ** bedrock_basic.py and vertex_ai_basic.py *)
(* ===================================================================== *)

Module bedrock_basic.
Import Py Anthropic Script.
Local Open Scope script_scope.

Definition request : Request :=
  {| model := "global.anthropic.claude-sonnet-4-5-20250929-v1:0";
     max_tokens := 256;
     system := None;
     messages :=
       [ {| role := user;
            content := Str "What is the capital of France? Answer in one sentence." |} ] |}.

Definition main : M World unit :=
  client <- AnthropicBedrock "us-west-2" ;;
  print ("🔷 AWS Bedrock - Basic Claude Usage" ++ nl) ;;
  print "Sending message to Claude..." ;;
  message <- messages_create client request ;;
  response_text <- first_text message ;;
  print (nl ++ "✅ Response:" ++ nl ++ response_text ++ nl) ;;
  print "📊 Token Usage:" ;;
  print ("  Input tokens: " ++ str (input_tokens (usage message))) ;;
  print ("  Output tokens: " ++ str (output_tokens (usage message))) ;;
  print ("  Stop reason: " ++ str_optional (stop_reason message)).

End bedrock_basic.

Module vertex_ai_basic.
Import Py Anthropic Script.
Local Open Scope script_scope.

Definition request : Request :=
  {| model := "claude-sonnet-4-5@20250929";
     max_tokens := 256;
     system := None;
     messages :=
       [ {| role := user;
            content := Str "What is the capital of Japan? Answer in one sentence." |} ] |}.

Definition main : M World unit :=
  client <- AnthropicVertex "YOUR_PROJECT_ID" "global" ;;
  print ("🔵 Google Vertex AI - Basic Claude Usage" ++ nl) ;;
  print "Sending message to Claude..." ;;
  message <- messages_create client request ;;
  response_text <- first_text message ;;
  print (nl ++ "✅ Response:" ++ nl ++ response_text ++ nl) ;;
  print "📊 Token Usage:" ;;
  print ("  Input tokens: " ++ str (input_tokens (usage message))) ;;
  print ("  Output tokens: " ++ str (output_tokens (usage message))) ;;
  print ("  Stop reason: " ++ str_optional (stop_reason message)).

End vertex_ai_basic.

(* ===================================================================== *)
(** ** Sample worlds *)
(* ===================================================================== *)

Module Samples.
Import Py Anthropic Script.

Definition answer : Message :=
  {| response_content := [TextBlock "Qubits hold superpositions."];
     usage := {| input_tokens := 17; output_tokens := 5 |};
     stop_reason := Some "end_turn" |}.

(** A world whose service treats every request by [outcome], with two PNG
    files, one BMP file and a directory on disk. *)
Definition world (outcome : nat -> Res Message) (args : list string) : World :=
  {| remote := {| on_create := fun k _ => outcome k;
                  on_stream := fun _ _ => Raise (Exn APIError "Connection error.") |};
     fs := fun p =>
             if String.eqb p "photo.PNG" then Some (File [x66; x6f; x6f; x62])
             else if String.eqb p "photo.png" then Some (File [x66; x6f; x6f])
             else if String.eqb p "file.bmp" then Some (File [x42; x4d])
             else if String.eqb p "shots" then Some Dir
             else None;
     argv := args;
     ncalls := 0;
     trace := [] |}.

Definition rate_limited : World :=
  world (fun _ => Raise (Exn RateLimitError "Error code: 429")) ["bedrock_error_handling.py"].

Definition throttled : World :=
  world (fun _ => Raise (Exn APIError "ThrottlingException: Too many requests"))
        ["bedrock_error_handling.py"].

(** Rate-limited twice, then answered. *)
Definition recovering : World :=
  world (fun k => match k with
                  | O | S O => Raise (Exn RateLimitError "Error code: 429")
                  | _ => Return answer
                  end) ["bedrock_error_handling.py"].

(** Rate-limited once, then refused for a bad request. *)
Definition refused_second : World :=
  world (fun k => match k with
                  | O => Raise (Exn RateLimitError "Error code: 429")
                  | _ => Raise (Exn APIStatusError "Error code: 400")
                  end) ["bedrock_error_handling.py"].

(** The vision script run without an argument, on a BMP file, and on a
    file that is not there. *)
Definition no_argument : World :=
  world (fun _ => Return answer) ["bedrock_vision.py"].

Definition bmp_argument : World :=
  world (fun _ => Return answer) ["bedrock_vision.py"; "file.bmp"].

Definition missing_argument : World :=
  world (fun _ => Return answer) ["bedrock_vision.py"; "nowhere.png"].

Definition answering : World :=
  world (fun _ => Return answer) ["bedrock_conversation.py"].

Definition failing : World :=
  world (fun _ => Raise (Exn APIError "Connection error.")) ["bedrock_conversation.py"].

(** A fresh session, and the worlds in which it was built. *)
Definition session : bedrock_conversation.ChatSession :=
  {| bedrock_conversation.client := Bedrock "us-west-2";
     bedrock_conversation.conversation_history := [];
     bedrock_conversation.session_model :=
       "global.anthropic.claude-sonnet-4-5-20250929-v1:0";
     bedrock_conversation.system_prompt :=
       "You are a helpful assistant. Be concise and clear in your responses." |}.

Definition connected : World :=
  advance answering [NewClient (Bedrock "us-west-2")] 0.

Definition disconnected : World :=
  advance failing [NewClient (Bedrock "us-west-2")] 0.

(** A streamed haiku: one text block delivered in three fragments. *)
Definition haiku_events : list StreamEvent :=
  [ message_start {| response_content := [];
                     usage := {| input_tokens := 15; output_tokens := 1 |};
                     stop_reason := None |};
    content_block_start 0 (TextBlock "");
    content_block_delta 0 (TextDelta "Silicon ");
    content_block_delta 0 (TextDelta "dreams ");
    content_block_delta 0 (TextDelta "awake");
    content_block_stop 0;
    message_delta (Some "end_turn") 9;
    message_stop ].

Definition streaming : World :=
  {| remote := {| on_create := fun _ _ => Return answer;
                  on_stream := fun _ _ => Return haiku_events |};
     fs := fun _ => None;
     argv := ["bedrock_streaming.py"];
     ncalls := 0;
     trace := [] |}.

(** A disk with a JPEG file, a directory named like a PNG file, a hidden
    file named [.png] and a file without a suffix. *)
Definition disk (p : string) : option node :=
  if String.eqb p "scan.jpeg" then Some (File [xff; xd8; xff])
  else if String.eqb p "album.png" then Some Dir
  else if String.eqb p "pics/.png" then Some (File [x89])
  else if String.eqb p "README" then Some (File [x68; x69])
  else None.

Definition on_disk (outcome : nat -> Res Message) (args : list string) : World :=
  {| remote := {| on_create := fun k _ => outcome k;
                  on_stream := fun _ _ => Raise (Exn APIError "Connection error.") |};
     fs := disk;
     argv := args;
     ncalls := 0;
     trace := [] |}.

(** An answer without content, and a world whose service gives it. *)
Definition silent : Message :=
  {| response_content := [];
     usage := {| input_tokens := 17; output_tokens := 0 |};
     stop_reason := Some "max_tokens" |}.

Definition muted : World :=
  world (fun _ => Return silent) ["bedrock_conversation.py"].

End Samples.

(* ===================================================================== *)
(** * Properties *)
(* ===================================================================== *)

(** ** Running the primitives *)

Section Primitives.
Import Py Anthropic Script.
Local Open Scope script_scope.

Lemma advance_advance w evs k evs' k' :
  advance (advance w evs k) evs' k' = advance w (evs ++ evs')%list (k + k')%nat.
Proof.
  unfold advance; cbn. now rewrite app_assoc, Nat.add_assoc.
Qed.

Lemma log_advance ev w : log ev w = advance w [ev] 0.
Proof. unfold log, advance. now rewrite Nat.add_0_r. Qed.

Lemma count_call_advance w : count_call w = advance w [] 1.
Proof. unfold count_call, advance. now rewrite app_nil_r, Nat.add_1_r. Qed.

Lemma emit_run ev w : emit ev w = (Return tt, advance w [ev] 0).
Proof. unfold emit. now rewrite log_advance. Qed.

Lemma print_run s w : print s w = (Return tt, advance w [Stdout (s ++ nl)] 0).
Proof. apply emit_run. Qed.

Lemma sleep_run n w : sleep n w = (Return tt, advance w [Sleep n] 0).
Proof. apply emit_run. Qed.

Lemma messages_create_run client req w :
  messages_create client req w =
  (on_create (remote w) (ncalls w) req, advance w [MessagesCreate req] 1).
Proof.
  unfold messages_create.
  now rewrite log_advance, count_call_advance, advance_advance.
Qed.

Lemma bind_run {S A B} (m : M S A) (k : A -> M S B) s :
  bind m k s = match m s with
               | (Return a, s') => k a s'
               | (Raise e, s') => (Raise e, s')
               end.
Proof. reflexivity. Qed.

End Primitives.

(** Runs a sequence of prints and sleeps, merging the events they add. *)
Ltac run_prims :=
  repeat (rewrite bind_run;
          first [rewrite print_run | rewrite sleep_run | rewrite emit_run];
          cbv beta iota);
  rewrite ?print_run, ?sleep_run, ?advance_advance;
  cbn [app Nat.add].


(** ** bedrock_error_handling: the retry loop *)

Section Retry.
Import Py Anthropic Script bedrock_error_handling.
Local Open Scope script_scope.

Variable client : Client.
Variable max_retries : Z.

(** One iteration of the loop, by the outcome of the remote call. *)
Lemma retry_loop_step attempt rest w :
  retry_loop client max_retries (attempt :: rest) w =
  let attempt_line :=
    Stdout (("Attempt " ++ str (attempt + 1) ++ "/" ++ str max_retries ++ "...") ++ nl) in
  let called := [attempt_line; MessagesCreate request] in
  match on_create (remote w) (ncalls w) request with
  | Return response => (Return response, advance w called 1)
  | Raise e =>
      if isinstance e RateLimitError then
        if attempt <? max_retries - 1 then
          retry_loop client max_retries rest
            (advance w
               (called ++
                [Stdout (("⚠️  Rate limited. Waiting " ++ str (2 ^ attempt)
                          ++ "s before retry...") ++ nl);
                 Sleep (2 ^ attempt)]) 1)
        else
          (Raise e,
           advance w
             (called ++ [Stdout ("❌ Max retries exceeded due to rate limiting" ++ nl)]) 1)
      else if isinstance e APIError then
        if contains "ThrottlingException" (str_exn e) && (attempt <? max_retries - 1) then
          retry_loop client max_retries rest
            (advance w
               (called ++
                [Stdout (("⚠️  Throttled. Waiting " ++ str (2 ^ attempt)
                          ++ "s before retry...") ++ nl);
                 Sleep (2 ^ attempt)]) 1)
        else
          (Raise e,
           advance w (called ++ [Stdout (("❌ API Error: " ++ str_exn e) ++ nl)]) 1)
      else if isinstance e Exception then
        (Raise e,
         advance w (called ++ [Stdout (("❌ Unexpected error: " ++ str_exn e) ++ nl)]) 1)
      else (Raise e, advance w called 1)
  end.
Proof.
  cbn zeta.
  cbn [retry_loop]. unfold try_ at 1.
  rewrite bind_run, print_run, messages_create_run, advance_advance.
  cbn [remote ncalls advance Nat.add app].
  rewrite Nat.add_0_r.
  destruct (on_create (remote w) (ncalls w) request) as [response | e]; [reflexivity|].
  cbn [find fst snd handles existsb].
  rewrite !orb_false_r.
  destruct (isinstance e RateLimitError); cbn [snd].
  - destruct (attempt <? max_retries - 1); now run_prims.
  - destruct (isinstance e APIError); cbn [snd].
    + destruct (contains "ThrottlingException" (str_exn e)); cbn [andb];
        [destruct (attempt <? max_retries - 1)|]; now run_prims.
    + destruct (isinstance e Exception); cbn [snd]; now run_prims.
Qed.

End Retry.

Section RetrySchedule.
Import Py Anthropic Script bedrock_error_handling.
Local Open Scope script_scope.

Variable client : Client.
Variable max_retries : Z.

Lemma timeline_app t t' : timeline (t ++ t') = (timeline t ++ timeline t')%list.
Proof.
  induction t as [|ev t IH]; [reflexivity|].
  destruct ev; cbn; now rewrite IH.
Qed.

Lemma sleeps_app t t' : sleeps (t ++ t') = (sleeps t ++ sleeps t')%list.
Proof.
  induction t as [|ev t IH]; [reflexivity|].
  destruct ev; cbn; now rewrite IH.
Qed.

Lemma retryable_cases e :
  retryable e = true ->
  isinstance e RateLimitError = true \/
  (isinstance e RateLimitError = false /\ isinstance e APIError = true /\
   contains "ThrottlingException" (str_exn e) = true).
Proof.
  unfold retryable, is_rate_limit, is_throttling.
  destruct (isinstance e RateLimitError); [now left|right].
  cbn in H. apply andb_prop in H. tauto.
Qed.

(** Attempts that raise retryable errors while attempts remain are each
    followed by a sleep of [2 ^ attempt] seconds and the next attempt. *)
Lemma retry_loop_retried n :
  forall a w rest,
    Z.of_nat (a + n) <= max_retries - 1 ->
    (forall j, (j < n)%nat ->
       exists e, on_create (remote w) (ncalls w + j) request = Raise e /\
                 retryable e = true) ->
    exists evs,
      retry_loop client max_retries (map Z.of_nat (seq a n) ++ rest) w =
      retry_loop client max_retries rest (advance w evs n) /\
      timeline evs = backoffs (map Z.of_nat (seq a n)) /\
      sleeps evs = map (Z.pow 2) (map Z.of_nat (seq a n)).
Proof.
  induction n as [|n IH]; intros a w rest Hmax Hout.
  - exists []. cbn. unfold advance. rewrite app_nil_r, Nat.add_0_r.
    destruct w; auto.
  - destruct (Hout 0%nat ltac:(lia)) as (e & Hcall & Hre).
    rewrite Nat.add_0_r in Hcall.
    cbn [seq map app]. rewrite retry_loop_step. cbv zeta. rewrite Hcall.
    assert (Hlt : (Z.of_nat a <? max_retries - 1) = true) by (apply Z.ltb_lt; lia).
    rewrite Hlt.
    destruct (retryable_cases e Hre) as [Hrl | (Hrl & Hapi & Hthr)];
      [rewrite Hrl | rewrite Hrl, Hapi, Hthr; cbn [andb]].
    all: match goal with |- context [retry_loop _ _ (_ ++ ?r)%list ?w1] =>
           destruct (IH (S a) w1 r) as (evs & Hrun & Htl & Hsl)
         end.
    all: try lia.
    all: try (intros j Hj; destruct (Hout (S j) ltac:(lia)) as (e' & He' & Hre');
              exists e'; split; [|exact Hre'];
              cbn [remote ncalls advance];
              now replace (ncalls w + 1 + j)%nat with (ncalls w + S j)%nat by lia).
    all: eexists; split; [rewrite Hrun, advance_advance; reflexivity|].
    all: rewrite timeline_app, sleeps_app, Htl, Hsl; split; reflexivity.
Qed.

End RetrySchedule.

Section RetryClaims.
Import Py Anthropic Script bedrock_error_handling.
Local Open Scope script_scope.

Lemma range_pred_last (n : Z) :
  1 <= n -> range n = (range (n - 1) ++ [n - 1])%list.
Proof.
  intros Hn. unfold range.
  replace (Z.to_nat n) with (Z.to_nat (n - 1) + 1)%nat by lia.
  rewrite seq_app, map_app. cbn. f_equal. f_equal. lia.
Qed.

(** C1: when every attempt is rate-limited, [call_with_retry] makes exactly
    [max_retries] attempts, sleeps [2^k] seconds between attempt [k+1] and
    attempt [k+2] for [k = 0 .. max_retries - 2], does not sleep after the
    last attempt, and fails with the rate-limit error of the last attempt.
    With three attempts, rate-limited twice and then answered, it sleeps 1s
    then 2s and returns the answer. *)
Theorem call_with_retry_rate_limited :
  (forall client max_retries w,
      1 <= max_retries ->
      (forall k, (k < Z.to_nat max_retries)%nat ->
         exists e, on_create (remote w) (ncalls w + k) request = Raise e /\
                   is_rate_limit e = true) ->
      exists e evs,
        call_with_retry client max_retries w =
          (Raise e, advance w evs (Z.to_nat max_retries)) /\
        on_create (remote w) (ncalls w + Z.to_nat (max_retries - 1)) request = Raise e /\
        is_rate_limit e = true /\
        timeline evs = (backoffs (range (max_retries - 1)) ++ [inl tt])%list /\
        sleeps evs = map (Z.pow 2) (range (max_retries - 1)))
  /\
  (forall client w e1 e2 response,
      on_create (remote w) (ncalls w) request = Raise e1 ->
      is_rate_limit e1 = true ->
      on_create (remote w) (ncalls w + 1) request = Raise e2 ->
      is_rate_limit e2 = true ->
      on_create (remote w) (ncalls w + 2) request = Return response ->
      exists evs,
        call_with_retry client 3 w = (Return response, advance w evs 3) /\
        timeline evs = [inl tt; inr 1; inl tt; inr 2; inl tt] /\
        sleeps evs = [1; 2]).
Proof.
  split.
  - intros client max_retries w Hmax Hout.
    unfold call_with_retry. rewrite (range_pred_last max_retries Hmax).
    unfold range at 1.
    destruct (retry_loop_retried client max_retries (Z.to_nat (max_retries - 1))
                0%nat w [max_retries - 1]) as (evs & Hrun & Htl & Hsl).
    { lia. }
    { intros j Hj. destruct (Hout j ltac:(lia)) as (e & He & Hrl).
      exists e. split; [exact He|]. unfold retryable. now rewrite Hrl. }
    rewrite Hrun, retry_loop_step. cbv zeta.
    cbn [remote ncalls advance].
    destruct (Hout (Z.to_nat (max_retries - 1)) ltac:(lia)) as (e & He & Hrl).
    rewrite He. unfold is_rate_limit in Hrl. rewrite Hrl, Z.ltb_irrefl.
    exists e. eexists. split; [|split; [|split; [|split]]].
    + rewrite advance_advance. f_equal. f_equal. lia.
    + reflexivity.
    + exact Hrl.
    + rewrite timeline_app, Htl. reflexivity.
    + rewrite sleeps_app, Hsl. cbn. now rewrite app_nil_r.
  - intros client w e1 e2 response H1 R1 H2 R2 H3.
    unfold is_rate_limit in R1, R2.
    unfold call_with_retry. change (range 3) with [0; 1; 2].
    rewrite retry_loop_step. cbv zeta. rewrite H1, R1.
    change (0 <? 3 - 1) with true. cbv iota.
    rewrite retry_loop_step. cbv zeta. cbn [remote ncalls advance]. rewrite H2, R2.
    change (1 <? 3 - 1) with true. cbv iota.
    rewrite retry_loop_step. cbv zeta. cbn [remote ncalls advance].
    replace (ncalls w + 1 + 1)%nat with (ncalls w + 2)%nat by lia.
    rewrite H3, !advance_advance.
    eexists. split; [reflexivity|]. split; reflexivity.
Qed.

End RetryClaims.

Section RetryThrottling.
Import Py Anthropic Script bedrock_error_handling.
Local Open Scope script_scope.

Variable client : Client.
Variable max_retries : Z.

Lemma since_advance w evs k : since w (advance w evs k) = evs.
Proof.
  unfold since, advance; cbn [trace].
  induction (trace w) as [|ev t IH]; [reflexivity | exact IH].
Qed.

Lemma advance_nothing w : advance w [] 0 = w.
Proof. destruct w. unfold advance; cbn. now rewrite app_nil_r, Nat.add_0_r. Qed.

(** A retried attempt announced as throttled counts its sleep; one
    announced as rate-limited does not. *)
Lemma throttle_sleeps_throttled line req x s tl :
  throttle_sleeps
    (Stdout line :: MessagesCreate req ::
     Stdout (("⚠️  Throttled. Waiting " ++ x) ++ nl) :: Sleep s :: tl) =
  s :: throttle_sleeps tl.
Proof. reflexivity. Qed.

Lemma throttle_sleeps_rate_limited line req x s tl :
  throttle_sleeps
    (Stdout line :: MessagesCreate req ::
     Stdout (("⚠️  Rate limited. Waiting " ++ x) ++ nl) :: Sleep s :: tl) =
  throttle_sleeps tl.
Proof. reflexivity. Qed.

(** Whatever the service answers, the loop over [n] attempts sleeps for
    throttling at most [n - 1] times. *)
Lemma retry_loop_throttle_bound n :
  forall a w,
    max_retries = Z.of_nat (a + n) ->
    exists r evs k,
      retry_loop client max_retries (map Z.of_nat (seq a n)) w = (r, advance w evs k) /\
      (List.length (throttle_sleeps evs) <= n - 1)%nat.
Proof.
  induction n as [|n IH]; intros a w Hmax.
  - exists (Raise (Exn Exception "Failed after max retries")), [], 0%nat.
    rewrite advance_nothing. split; [reflexivity | cbn; lia].
  - cbn [seq map]. rewrite retry_loop_step. cbv zeta.
    assert (Hlast : (Z.of_nat a <? max_retries - 1) = negb (Nat.eqb n 0)).
    { destruct (Nat.eqb_spec n 0); cbn; [apply Z.ltb_ge | apply Z.ltb_lt]; lia. }
    rewrite Hlast.
    destruct (on_create (remote w) (ncalls w) request) as [response | e].
    { do 3 eexists. split; [reflexivity | cbn; lia]. }
    destruct (isinstance e RateLimitError).
    { destruct (Nat.eqb_spec n 0) as [Hn | Hn]; cbn [negb].
      - do 3 eexists. split; [reflexivity | cbn; lia].
      - match goal with |- context [retry_loop _ _ _ ?w1] =>
          destruct (IH (S a) w1 ltac:(lia)) as (r & evs & k & Hrun & Hlen)
        end.
        rewrite Hrun, advance_advance. do 3 eexists. split; [reflexivity|].
        cbn [app]. rewrite throttle_sleeps_rate_limited. lia. }
    destruct (isinstance e APIError).
    { destruct (contains "ThrottlingException" (str_exn e)); cbn [andb].
      - destruct (Nat.eqb_spec n 0) as [Hn | Hn]; cbn [negb].
        + do 3 eexists. split; [reflexivity | cbn; lia].
        + match goal with |- context [retry_loop _ _ _ ?w1] =>
            destruct (IH (S a) w1 ltac:(lia)) as (r & evs & k & Hrun & Hlen)
          end.
          rewrite Hrun, advance_advance. do 3 eexists. split; [reflexivity|].
          cbn [app]. rewrite throttle_sleeps_throttled.
          cbn [List.length]. lia.
      - do 3 eexists. split; [reflexivity | cbn; lia]. }
    destruct (isinstance e Exception);
      do 3 eexists; (split; [reflexivity | cbn; lia]).
Qed.

End RetryThrottling.

Section RetryThrottled.
Import Py Anthropic Script bedrock_error_handling.
Local Open Scope script_scope.

Variable client : Client.
Variable max_retries : Z.

Lemma is_throttling_true e :
  is_throttling e = true ->
  isinstance e RateLimitError = false /\ isinstance e APIError = true /\
  contains "ThrottlingException" (str_exn e) = true.
Proof.
  unfold is_throttling. intros H.
  apply andb_prop in H as [H Hc]. apply andb_prop in H as [Hr Ha].
  apply negb_true_iff in Hr. auto.
Qed.

(** When every attempt is throttled, each attempt but the last is followed
    by its backoff, and the last error is raised. *)
Lemma retry_loop_throttled n :
  forall a w,
    max_retries = Z.of_nat (a + S n) ->
    (forall j, (j <= n)%nat ->
       exists e, on_create (remote w) (ncalls w + j) request = Raise e /\
                 is_throttling e = true) ->
    exists e evs,
      retry_loop client max_retries (map Z.of_nat (seq a (S n))) w =
        (Raise e, advance w evs (S n)) /\
      on_create (remote w) (ncalls w + n) request = Raise e /\
      timeline evs = (backoffs (map Z.of_nat (seq a n)) ++ [inl tt])%list /\
      throttle_sleeps evs = map (Z.pow 2) (map Z.of_nat (seq a n)).
Proof.
  induction n as [|n IH]; intros a w Hmax Hout.
  - destruct (Hout 0%nat ltac:(lia)) as (e & Hcall & Hthr).
    apply is_throttling_true in Hthr as (Hrl & Hapi & Hmark).
    rewrite Nat.add_0_r in Hcall |- *.
    cbn [seq map]. rewrite retry_loop_step. cbv zeta.
    rewrite Hcall, Hrl, Hapi, Hmark.
    replace (Z.of_nat a <? max_retries - 1) with false
      by (symmetry; apply Z.ltb_ge; lia).
    cbn [andb]. exists e. eexists. split; [reflexivity|]. now repeat split.
  - destruct (Hout 0%nat ltac:(lia)) as (e0 & Hcall & Hthr).
    apply is_throttling_true in Hthr as (Hrl & Hapi & Hmark).
    rewrite Nat.add_0_r in Hcall.
    remember (S n) as m eqn:Hm.
    cbn [seq map]. rewrite retry_loop_step. cbv zeta.
    rewrite Hcall, Hrl, Hapi, Hmark.
    replace (Z.of_nat a <? max_retries - 1) with true
      by (symmetry; apply Z.ltb_lt; lia).
    cbn [andb]. subst m.
    match goal with |- context [retry_loop _ _ _ ?w1] =>
      destruct (IH (S a) w1 ltac:(lia)) as (e & evs & Hrun & Hlast & Htl & Hsl)
    end.
    { intros j Hj. destruct (Hout (S j) ltac:(lia)) as (e' & He' & Hthr').
      exists e'. split; [|exact Hthr'].
      cbn [remote ncalls advance].
      now replace (ncalls w + 1 + j)%nat with (ncalls w + S j)%nat by lia. }
    cbn [remote ncalls advance] in Hlast.
    replace (ncalls w + 1 + n)%nat with (ncalls w + S n)%nat in Hlast by lia.
    exists e. eexists. split; [|split; [exact Hlast | split]].
    + rewrite Hrun, advance_advance. reflexivity.
    + cbn [app]. cbn [timeline]. rewrite Htl. reflexivity.
    + cbn [app]. rewrite throttle_sleeps_throttled, Hsl. reflexivity.
Qed.

End RetryThrottled.

Section RetryErrorClaims.
Import Py Anthropic Script bedrock_error_handling.
Local Open Scope script_scope.

(** C5, as the code has it: a throttling-marked API error is answered by
    the backoff on every attempt but the last, so that a call sleeps for
    throttling at most [max_retries - 1] times, whatever the service
    answers; when every attempt is throttled it sleeps exactly that often,
    [2^k] seconds after attempt [k+1], and raises the last error without
    sleeping. *)
Theorem call_with_retry_throttling_backoff :
  (forall client max_retries w,
      (List.length
         (throttle_sleeps (since w (snd (call_with_retry client max_retries w))))
       <= Z.to_nat (max_retries - 1))%nat)
  /\
  (forall client max_retries w,
      1 <= max_retries ->
      (forall k, (k < Z.to_nat max_retries)%nat ->
         exists e, on_create (remote w) (ncalls w + k) request = Raise e /\
                   is_throttling e = true) ->
      exists e evs,
        call_with_retry client max_retries w =
          (Raise e, advance w evs (Z.to_nat max_retries)) /\
        on_create (remote w) (ncalls w + Z.to_nat (max_retries - 1)) request = Raise e /\
        timeline evs = (backoffs (range (max_retries - 1)) ++ [inl tt])%list /\
        throttle_sleeps evs = map (Z.pow 2) (range (max_retries - 1))).
Proof.
  split.
  - intros client max_retries w. unfold call_with_retry, range.
    destruct (retry_loop_throttle_bound client (Z.of_nat (Z.to_nat max_retries))
                (Z.to_nat max_retries) 0%nat w eq_refl)
      as (r & evs & k & Hrun & Hlen).
    assert (Hloop : retry_loop client max_retries
                      (map Z.of_nat (seq 0 (Z.to_nat max_retries))) w =
                    (r, advance w evs k)).
    { destruct (Z.le_gt_cases 0 max_retries) as [Hpos | Hneg].
      - rewrite Z2Nat.id in Hrun by exact Hpos. exact Hrun.
      - replace (Z.to_nat max_retries) with 0%nat in * by lia.
        cbn in Hrun |- *. exact Hrun. }
    rewrite Hloop. cbn [snd]. rewrite since_advance. lia.
  - intros client max_retries w Hmax Hout.
    unfold call_with_retry, range.
    replace (Z.to_nat max_retries) with (S (Z.to_nat (max_retries - 1))) by lia.
    apply retry_loop_throttled; [lia|].
    intros j Hj. apply Hout. lia.
Qed.

(** C5 as stated fails: with three attempts all throttled, the call sleeps
    for throttling twice. *)
Lemma throttling_backoff_more_than_once :
  throttle_sleeps
    (since Samples.throttled
       (snd (call_with_retry (Bedrock "us-west-2") 3 Samples.throttled))) = [1; 2]
  /\
  ~ (forall client max_retries w,
       (List.length
          (throttle_sleeps (since w (snd (call_with_retry client max_retries w))))
        <= 1)%nat).
Proof.
  split; [reflexivity|].
  intros H.
  specialize (H (Bedrock "us-west-2") 3 Samples.throttled).
  vm_compute in H. lia.
Qed.

End RetryErrorClaims.

Section RetryFatal.
Import Py Anthropic Script bedrock_error_handling.
Local Open Scope script_scope.

Lemma fatal_true e :
  fatal e = true ->
  isinstance e RateLimitError = false /\
  (isinstance e APIError && contains "ThrottlingException" (str_exn e)) = false.
Proof.
  unfold fatal. intros H. apply andb_prop in H as [Hr Ha].
  apply negb_true_iff in Hr. apply negb_true_iff in Ha. auto.
Qed.

(** An attempt whose error is fatal ends the loop with that error: the
    call is the last thing on the timeline. *)
Lemma retry_loop_fatal client max_retries attempt rest w e :
  on_create (remote w) (ncalls w) request = Raise e ->
  fatal e = true ->
  exists evs,
    retry_loop client max_retries (attempt :: rest) w = (Raise e, advance w evs 1) /\
    timeline evs = [inl tt] /\ sleeps evs = [].
Proof.
  intros Hcall Hfatal. apply fatal_true in Hfatal as (Hrl & Hthr).
  rewrite retry_loop_step. cbv zeta. rewrite Hcall, Hrl.
  destruct (isinstance e APIError).
  - cbn [andb] in Hthr. rewrite Hthr. cbn [andb].
    eexists. split; [reflexivity | split; reflexivity].
  - destruct (isinstance e Exception); eexists;
      (split; [reflexivity | split; reflexivity]).
Qed.

(** C6: an attempt that raises an error which is neither a rate-limit
    error nor a throttling-marked API error ends the call with that error;
    attempt [k+1] is reached exactly when the [k] attempts before it were
    retried, and after its remote call there is no sleep and no other call. *)
Theorem call_with_retry_fatal_error :
  forall client max_retries w k e,
    1 <= max_retries ->
    (k < Z.to_nat max_retries)%nat ->
    (forall j, (j < k)%nat ->
       exists e', on_create (remote w) (ncalls w + j) request = Raise e' /\
                  retryable e' = true) ->
    on_create (remote w) (ncalls w + k) request = Raise e ->
    fatal e = true ->
    exists evs,
      call_with_retry client max_retries w = (Raise e, advance w evs (S k)) /\
      timeline evs = (backoffs (range (Z.of_nat k)) ++ [inl tt])%list /\
      sleeps evs = map (Z.pow 2) (range (Z.of_nat k)).
Proof.
  intros client max_retries w k e Hmax Hk Hretried Hcall Hfatal.
  unfold call_with_retry, range.
  replace (Z.to_nat max_retries) with (k + S (Z.to_nat max_retries - S k))%nat by lia.
  rewrite seq_app, map_app. cbn [seq map Nat.add].
  destruct (retry_loop_retried client max_retries k 0%nat w
              (Z.of_nat k :: map Z.of_nat (seq (S k) (Z.to_nat max_retries - S k))))
    as (evs & Hrun & Htl & Hsl).
  { lia. }
  { exact Hretried. }
  rewrite Hrun.
  destruct (retry_loop_fatal client max_retries (Z.of_nat k)
              (map Z.of_nat (seq (S k) (Z.to_nat max_retries - S k)))
              (advance w evs k) e) as (evs' & Hrun' & Htl' & Hno).
  { exact Hcall. }
  { exact Hfatal. }
  rewrite Hrun', advance_advance.
  exists (evs ++ evs')%list. split; [|split].
  - f_equal. f_equal. lia.
  - rewrite timeline_app, Htl, Htl', Nat2Z.id. reflexivity.
  - rewrite sleeps_app, Hsl, Nat2Z.id.
    rewrite Hno. now rewrite app_nil_r.
Qed.

End RetryFatal.

Section RetryWitnesses.
Import Py Anthropic Script bedrock_error_handling.

Lemma call_with_retry_rate_limited_witness :
  (exists e evs,
     call_with_retry (Bedrock "us-west-2") 3 Samples.rate_limited =
       (Raise e, advance Samples.rate_limited evs 3) /\
     on_create (remote Samples.rate_limited) 2 request = Raise e /\
     is_rate_limit e = true /\
     timeline evs = [inl tt; inr 1; inl tt; inr 2; inl tt] /\
     sleeps evs = [1; 2])
  /\
  (exists evs,
     call_with_retry (Bedrock "us-west-2") 3 Samples.recovering =
       (Return Samples.answer, advance Samples.recovering evs 3) /\
     timeline evs = [inl tt; inr 1; inl tt; inr 2; inl tt] /\
     sleeps evs = [1; 2]).
Proof.
  split.
  - apply (proj1 call_with_retry_rate_limited (Bedrock "us-west-2") 3 Samples.rate_limited).
    + lia.
    + intros k _. exists (Exn RateLimitError "Error code: 429").
      split; reflexivity.
  - apply (proj2 call_with_retry_rate_limited (Bedrock "us-west-2") Samples.recovering
             (Exn RateLimitError "Error code: 429") (Exn RateLimitError "Error code: 429")
             Samples.answer); reflexivity.
Defined.

Lemma call_with_retry_throttling_backoff_witness :
  exists e evs,
    call_with_retry (Bedrock "us-west-2") 3 Samples.throttled =
      (Raise e, advance Samples.throttled evs 3) /\
    on_create (remote Samples.throttled) 2 request = Raise e /\
    timeline evs = [inl tt; inr 1; inl tt; inr 2; inl tt] /\
    throttle_sleeps evs = [1; 2].
Proof.
  apply (proj2 call_with_retry_throttling_backoff (Bedrock "us-west-2") 3 Samples.throttled).
  - lia.
  - intros k _. exists (Exn APIError "ThrottlingException: Too many requests").
    split; reflexivity.
Defined.

Lemma call_with_retry_fatal_error_witness :
  exists evs,
    call_with_retry (Bedrock "us-west-2") 3 Samples.refused_second =
      (Raise (Exn APIStatusError "Error code: 400"),
       advance Samples.refused_second evs 2) /\
    timeline evs = [inl tt; inr 1; inl tt] /\
    sleeps evs = [1].
Proof.
  apply (call_with_retry_fatal_error (Bedrock "us-west-2") 3 Samples.refused_second 1
           (Exn APIStatusError "Error code: 400")).
  - lia.
  - cbn. lia.
  - intros j Hj. exists (Exn RateLimitError "Error code: 429").
    destruct j as [|j]; [split; reflexivity | lia].
  - reflexivity.
  - reflexivity.
Defined.

End RetryWitnesses.

(** ** Base64 *)

Section Base64.
Import Py.

(** The test vectors of RFC 4648, section 10. *)
Example b64_vectors :
  map (fun s => standard_b64encode (list_byte_of_string s))
      [""; "f"; "fo"; "foo"; "foob"; "fooba"; "foobar"] =
  [""; "Zg=="; "Zm8="; "Zm9v"; "Zm9vYg=="; "Zm9vYmE="; "Zm9vYmFy"].
Proof. reflexivity. Qed.

Lemma land_shiftl_disjoint x y k :
  0 <= k -> 0 <= y < 2 ^ k -> Z.land (x * 2 ^ k) y = 0.
Proof.
  intros Hk Hy. apply Z.bits_inj'. intros n Hn. rewrite Z.land_spec, Z.bits_0.
  destruct (Z.lt_ge_cases n k) as [Hlt | Hge].
  - now rewrite Z.mul_pow2_bits_low by lia.
  - destruct (Z.eq_dec y 0) as [-> | Hy0]; [now rewrite Z.bits_0, andb_false_r|].
    assert (Hlog : Z.log2 y < k) by (apply Z.log2_lt_pow2; lia).
    rewrite (Z.bits_above_log2 y n) by lia. apply andb_false_r.
Qed.

Lemma lor_shiftl_disjoint x y k :
  0 <= k -> 0 <= y < 2 ^ k -> Z.lor (Z.shiftl x k) y = x * 2 ^ k + y.
Proof.
  intros Hk Hy. rewrite Z.shiftl_mul_pow2 by lia.
  pose proof (land_shiftl_disjoint x y k Hk Hy) as Hland.
  rewrite <- Z.lxor_lor by exact Hland.
  symmetry. now apply Z.add_nocarry_lxor.
Qed.

Lemma byteZ_range b : 0 <= byteZ b < 256.
Proof.
  unfold byteZ. pose proof (Byte.to_N_bounded b). lia.
Qed.

Lemma sextet_value g i :
  0 <= i <= 3 -> sextet g i = b64_char ((g / 2 ^ (18 - 6 * i)) mod 64).
Proof.
  intros Hi. unfold sextet. rewrite Z.shiftr_div_pow2 by lia.
  change 63 with (Z.ones 6). now rewrite Z.land_ones by lia.
Qed.

Lemma group_value a b c :
  Z.lor (Z.lor (Z.shiftl (byteZ a) 16) (Z.shiftl (byteZ b) 8)) (byteZ c) =
  byteZ a * 65536 + byteZ b * 256 + byteZ c.
Proof.
  pose proof (byteZ_range a). pose proof (byteZ_range b). pose proof (byteZ_range c).
  rewrite (Z.shiftl_mul_pow2 (byteZ b)) by lia.
  rewrite (lor_shiftl_disjoint (byteZ a) (byteZ b * 2 ^ 8) 16) by lia.
  replace (byteZ a * 2 ^ 16 + byteZ b * 2 ^ 8) with ((byteZ a * 256 + byteZ b) * 2 ^ 8) by lia.
  rewrite <- (Z.shiftl_mul_pow2 _ 8) by lia.
  rewrite lor_shiftl_disjoint by lia. lia.
Qed.

Lemma in_range n k : 0 <= n < k -> In n (range k).
Proof.
  intros Hn. unfold range. apply in_map_iff. exists (Z.to_nat n). split; [lia|].
  apply in_seq. lia.
Qed.

Lemma b64_index_char n : 0 <= n < 64 -> b64_index (b64_char n) = Some n.
Proof.
  intros Hn.
  assert (Hall : forallb (fun k => match b64_index (b64_char k) with
                                     | Some k' => k' =? k
                                     | None => false
                                     end) (range 64) = true) by reflexivity.
  rewrite forallb_forall in Hall.
  specialize (Hall n (in_range n 64 Hn)).
  destruct (b64_index (b64_char n)) as [k|]; [|discriminate].
  apply Z.eqb_eq in Hall. now subst.
Qed.

Lemma b64_char_not_pad n : 0 <= n < 64 -> Ascii.eqb (b64_char n) "=" = false.
Proof.
  intros Hn.
  assert (Hall : forallb (fun k => negb (Ascii.eqb (b64_char k) "=")) (range 64) = true)
    by reflexivity.
  rewrite forallb_forall in Hall.
  specialize (Hall n (in_range n 64 Hn)). now apply negb_true_iff in Hall.
Qed.

Lemma byte_of_byteZ v b : v = byteZ b -> byte_of v = Some b.
Proof.
  intros ->. unfold byte_of, byteZ. rewrite N2Z.id. apply Byte.of_to_N.
Qed.

Ltac solve_sextets := 
  repeat match goal with
  | |- context [sextet ?g ?i] => rewrite (sextet_value g i) by lia
  end.

Lemma decode_group a b c rest :
  standard_b64decode
    (let g := Z.lor (Z.lor (Z.shiftl (byteZ a) 16) (Z.shiftl (byteZ b) 8)) (byteZ c) in
     String (sextet g 0) (String (sextet g 1) (String (sextet g 2)
       (String (sextet g 3) rest)))) =
  match standard_b64decode rest with
  | Some bs => Some (a :: b :: c :: bs)
  | None => None
  end.
Proof.
  cbv zeta. rewrite group_value.
  pose proof (byteZ_range a) as Ha. pose proof (byteZ_range b) as Hb.
  pose proof (byteZ_range c) as Hc.
  set (g := byteZ a * 65536 + byteZ b * 256 + byteZ c).
  solve_sextets.
  change (2 ^ (18 - 6 * 0)) with 262144. change (2 ^ (18 - 6 * 1)) with 4096.
  change (2 ^ (18 - 6 * 2)) with 64. change (2 ^ (18 - 6 * 3)) with 1.
  set (s0 := (g / 262144) mod 64). set (s1 := (g / 4096) mod 64).
  set (s2 := (g / 64) mod 64). set (s3 := (g / 1) mod 64).
  assert (H0 : 0 <= s0 < 64) by (apply Z.mod_pos_bound; lia).
  assert (H1 : 0 <= s1 < 64) by (apply Z.mod_pos_bound; lia).
  assert (H2 : 0 <= s2 < 64) by (apply Z.mod_pos_bound; lia).
  assert (H3 : 0 <= s3 < 64) by (apply Z.mod_pos_bound; lia).
  cbn [standard_b64decode].
  rewrite !b64_index_char by assumption.
  rewrite (byte_of_byteZ _ a) by (subst s0 s1 g; Z.div_mod_to_equations; lia).
  rewrite (b64_char_not_pad s2) by assumption.
  rewrite (byte_of_byteZ _ b) by (subst s1 s2 g; Z.div_mod_to_equations; lia).
  rewrite (b64_char_not_pad s3) by assumption.
  rewrite (byte_of_byteZ _ c) by (subst s2 s3 g; Z.div_mod_to_equations; lia).
  reflexivity.
Qed.

Lemma decode_one a :
  standard_b64decode
    (let g := Z.shiftl (byteZ a) 16 in
     String (sextet g 0) (String (sextet g 1) "==")) = Some [a].
Proof.
  cbv zeta. rewrite Z.shiftl_mul_pow2 by lia. change (2 ^ 16) with 65536.
  pose proof (byteZ_range a) as Ha.
  set (g := byteZ a * 65536).
  solve_sextets.
  change (2 ^ (18 - 6 * 0)) with 262144. change (2 ^ (18 - 6 * 1)) with 4096.
  set (s0 := (g / 262144) mod 64). set (s1 := (g / 4096) mod 64).
  assert (H0 : 0 <= s0 < 64) by (apply Z.mod_pos_bound; lia).
  assert (H1 : 0 <= s1 < 64) by (apply Z.mod_pos_bound; lia).
  cbn [standard_b64decode].
  rewrite !b64_index_char by assumption.
  rewrite (byte_of_byteZ _ a) by (subst s0 s1 g; Z.div_mod_to_equations; lia).
  replace (s1 mod 16 =? 0) with true
    by (symmetry; apply Z.eqb_eq; subst s1 g; Z.div_mod_to_equations; lia).
  reflexivity.
Qed.

Lemma decode_two a b :
  standard_b64decode
    (let g := Z.lor (Z.shiftl (byteZ a) 16) (Z.shiftl (byteZ b) 8) in
     String (sextet g 0) (String (sextet g 1) (String (sextet g 2) "="))) = Some [a; b].
Proof.
  cbv zeta.
  pose proof (byteZ_range a) as Ha. pose proof (byteZ_range b) as Hb.
  rewrite (Z.shiftl_mul_pow2 (byteZ b)) by lia.
  rewrite lor_shiftl_disjoint by lia.
  change (2 ^ 16) with 65536. change (2 ^ 8) with 256.
  set (g := byteZ a * 65536 + byteZ b * 256).
  solve_sextets.
  change (2 ^ (18 - 6 * 0)) with 262144. change (2 ^ (18 - 6 * 1)) with 4096.
  change (2 ^ (18 - 6 * 2)) with 64.
  set (s0 := (g / 262144) mod 64). set (s1 := (g / 4096) mod 64).
  set (s2 := (g / 64) mod 64).
  assert (H0 : 0 <= s0 < 64) by (apply Z.mod_pos_bound; lia).
  assert (H1 : 0 <= s1 < 64) by (apply Z.mod_pos_bound; lia).
  assert (H2 : 0 <= s2 < 64) by (apply Z.mod_pos_bound; lia).
  cbn [standard_b64decode].
  rewrite !b64_index_char by assumption.
  rewrite (byte_of_byteZ _ a) by (subst s0 s1 g; Z.div_mod_to_equations; lia).
  rewrite (b64_char_not_pad s2) by assumption.
  rewrite (byte_of_byteZ _ b) by (subst s1 s2 g; Z.div_mod_to_equations; lia).
  replace (s2 mod 4 =? 0) with true
    by (symmetry; apply Z.eqb_eq; subst s2 g; Z.div_mod_to_equations; lia).
  reflexivity.
Qed.

Lemma standard_b64_roundtrip_upto n :
  forall data, (List.length data <= n)%nat ->
    standard_b64decode (standard_b64encode data) = Some data.
Proof.
  induction n as [|n IH]; intros data Hlen.
  - destruct data; [reflexivity | cbn in Hlen; lia].
  - destruct data as [|a [|b [|c rest]]].
    + reflexivity.
    + apply decode_one.
    + apply decode_two.
    + cbn [standard_b64encode]. rewrite decode_group.
      rewrite IH by (cbn in Hlen; lia). reflexivity.
Qed.

(** Decoding the encoded text gives the bytes back. *)
Lemma standard_b64_roundtrip data :
  standard_b64decode (standard_b64encode data) = Some data.
Proof. apply (standard_b64_roundtrip_upto (List.length data)). lia. Qed.

End Base64.

(** ** bedrock_vision: the image attachment *)

Section EncodeImage.
Import Py Anthropic Script bedrock_vision.
Local Open Scope script_scope.

(** [encode_image], by cases. *)
Lemma encode_image_run image_path w :
  encode_image image_path w =
  if exists_at w image_path then
    match dict_get (extension image_path) media_types with
    | None =>
        (Raise (Exn ValueError ("Unsupported image type: " ++ extension image_path)), w)
    | Some media_type =>
        match fs w image_path with
        | Some (File data) =>
            (Return (standard_b64encode data, media_type),
             advance w [OpenRead image_path] 0)
        | Some Dir =>
            (Raise (Exn IsADirectoryError
                      ("[Errno 21] Is a directory: '" ++ image_path ++ "'")),
             advance w [OpenRead image_path] 0)
        | None =>
            (Raise (Exn FileNotFoundError
                      ("[Errno 2] No such file or directory: '" ++ image_path ++ "'")),
             advance w [OpenRead image_path] 0)
        end
    end
  else
    (Raise (Exn FileNotFoundError ("Image file not found: " ++ image_path)), w).
Proof.
  unfold encode_image, extension. rewrite bind_run. unfold Path_exists.
  destruct (exists_at w image_path); cbn [negb]; [|reflexivity].
  destruct (dict_get (lower (suffix image_path)) media_types); [|reflexivity].
  rewrite bind_run. unfold read_binary. rewrite log_advance.
  destruct (fs w image_path) as [[data|]|]; reflexivity.
Qed.

(** The table has an entry exactly for the supported extensions. *)
Lemma media_types_supported ext :
  supported ext = true ->
  exists media_type,
    dict_get ext media_types = Some media_type /\
    ((ext = ".jpg" /\ media_type = "image/jpeg") \/
     (ext = ".jpeg" /\ media_type = "image/jpeg") \/
     (ext = ".png" /\ media_type = "image/png") \/
     (ext = ".gif" /\ media_type = "image/gif") \/
     (ext = ".webp" /\ media_type = "image/webp")).
Proof.
  unfold supported, media_types. cbn [existsb dict_get]. intros Hext.
  destruct (String.eqb_spec ext ".jpg") as [E | _];
    [eexists; split; [reflexivity | auto] |].
  destruct (String.eqb_spec ext ".jpeg") as [E | _];
    [eexists; split; [reflexivity | auto] |].
  destruct (String.eqb_spec ext ".png") as [E | _];
    [eexists; split; [reflexivity | auto 6] |].
  destruct (String.eqb_spec ext ".gif") as [E | _];
    [eexists; split; [reflexivity | auto 7] |].
  destruct (String.eqb_spec ext ".webp") as [E | _];
    [eexists; split; [reflexivity | auto 8] |].
  discriminate Hext.
Qed.

Lemma media_types_unsupported ext :
  supported ext = false -> dict_get ext media_types = None.
Proof.
  unfold supported, media_types. cbn [existsb dict_get].
  destruct (ext =? ".jpg")%string; [discriminate|].
  destruct (ext =? ".jpeg")%string; [discriminate|].
  destruct (ext =? ".png")%string; [discriminate|].
  destruct (ext =? ".gif")%string; [discriminate|].
  destruct (ext =? ".webp")%string; [discriminate|].
  reflexivity.
Qed.

(** C2: for an existing file with a supported extension, [encode_image]
    returns the standard base64 text of the whole file, which decodes back
    to the bytes of the file, and the media type of the extension:
    image/jpeg for jpg and jpeg, image/png for png, image/gif for gif,
    image/webp for webp; the file is read and nothing else happens. *)
Theorem encode_image_supported :
  forall image_path data w,
    fs w image_path = Some (File data) ->
    supported (extension image_path) = true ->
    exists media_type,
      encode_image image_path w =
        (Return (standard_b64encode data, media_type),
         advance w [OpenRead image_path] 0) /\
      standard_b64decode (standard_b64encode data) = Some data /\
      ((extension image_path = ".jpg" /\ media_type = "image/jpeg") \/
       (extension image_path = ".jpeg" /\ media_type = "image/jpeg") \/
       (extension image_path = ".png" /\ media_type = "image/png") \/
       (extension image_path = ".gif" /\ media_type = "image/gif") \/
       (extension image_path = ".webp" /\ media_type = "image/webp")).
Proof.
  intros image_path data w Hfile Hext.
  destruct (media_types_supported _ Hext) as (media_type & Hget & Hcases).
  exists media_type. split; [|split; [apply standard_b64_roundtrip | exact Hcases]].
  rewrite encode_image_run.
  assert (Hex : exists_at w image_path = true).
  { unfold exists_at. destruct (String.eqb_spec image_path "") as [-> | _].
    - discriminate Hext.
    - now rewrite Hfile. }
  now rewrite Hex, Hget, Hfile.
Qed.

(** C3: [encode_image] fails with the not-found error when the path does
    not exist, and with the unsupported-type error when it exists and its
    extension is not one of .jpg, .jpeg, .png, .gif, .webp; in both cases
    the world is as it was: no client was built and no request issued. *)
Theorem encode_image_failures :
  forall image_path w,
    (exists_at w image_path = false ->
     encode_image image_path w =
       (Raise (Exn FileNotFoundError ("Image file not found: " ++ image_path)), w) /\
     network (since w (snd (encode_image image_path w))) = [])
    /\
    (exists_at w image_path = true ->
     supported (extension image_path) = false ->
     encode_image image_path w =
       (Raise (Exn ValueError ("Unsupported image type: " ++ extension image_path)), w) /\
     network (since w (snd (encode_image image_path w))) = []).
Proof.
  intros image_path w.
  assert (Hsame : network (since w w) = []).
  { rewrite <- (advance_nothing w) at 2. now rewrite since_advance. }
  split.
  - intros Hmissing. rewrite encode_image_run, Hmissing. now split.
  - intros Hex Hext. rewrite encode_image_run, Hex.
    rewrite (media_types_unsupported _ Hext). now split.
Qed.

End EncodeImage.

Section VisionMain.
Import Py Anthropic Script bedrock_vision.
Local Open Scope script_scope.

Lemma network_app t t' : network (t ++ t') = (network t ++ network t')%list.
Proof. apply filter_app. Qed.

(** [encode_image] depends on the file system only, and adds no network
    event to the trace. *)
Lemma encode_image_events image_path w :
  exists es,
    network es = [] /\
    forall evs k,
      encode_image image_path (advance w evs k) =
      (fst (encode_image image_path w), advance w (evs ++ es) k).
Proof.
  rewrite encode_image_run.
  assert (Hrun : forall evs k,
             encode_image image_path (advance w evs k) =
             if exists_at w image_path then
               match dict_get (extension image_path) media_types with
               | None =>
                   (Raise (Exn ValueError
                             ("Unsupported image type: " ++ extension image_path)),
                    advance w evs k)
               | Some media_type =>
                   match fs w image_path with
                   | Some (File data) =>
                       (Return (standard_b64encode data, media_type),
                        advance w (evs ++ [OpenRead image_path]) k)
                   | Some Dir =>
                       (Raise (Exn IsADirectoryError
                                 ("[Errno 21] Is a directory: '" ++ image_path ++ "'")),
                        advance w (evs ++ [OpenRead image_path]) k)
                   | None =>
                       (Raise (Exn FileNotFoundError
                                 ("[Errno 2] No such file or directory: '"
                                  ++ image_path ++ "'")),
                        advance w (evs ++ [OpenRead image_path]) k)
                   end
               end
             else
               (Raise (Exn FileNotFoundError ("Image file not found: " ++ image_path)),
                advance w evs k)).
  { intros evs k. rewrite encode_image_run, !advance_advance, Nat.add_0_r.
    reflexivity. }
  destruct (exists_at w image_path).
  - destruct (dict_get (extension image_path) media_types).
    + exists [OpenRead image_path]. split; [reflexivity|].
      intros evs k. rewrite Hrun.
      destruct (fs w image_path) as [[data|]|]; reflexivity.
    + exists []. split; [reflexivity|].
      intros evs k. now rewrite Hrun, app_nil_r.
  - exists []. split; [reflexivity|].
    intros evs k. now rewrite Hrun, app_nil_r.
Qed.

(** C8: the vision script exits with status 1 when the image path argument
    is missing, after printing its usage, and when [encode_image] fails
    with a not-found or an unsupported-type error, after printing the
    error; up to there no client was built and no request issued. *)
Theorem vision_main_exits_nonzero :
  forall w,
    ((List.length (argv w) < 2)%nat ->
     main w =
       (Raise (Exit 1),
        advance w
          [Stdout ("Usage: python bedrock_vision.py <path_to_image>" ++ nl);
           Stdout ((nl ++ "Example: python bedrock_vision.py /path/to/image.png") ++ nl)]
          0) /\
     exit_status (fst (main w)) <> 0 /\
     network (since w (snd (main w))) = [])
    /\
    (forall prog image_path rest e,
       argv w = prog :: image_path :: rest ->
       fst (encode_image image_path w) = Raise e ->
       handles e [FileNotFoundError; ValueError] = true ->
       exists evs,
         main w =
           (Raise (Exit 1),
            advance w (evs ++ [Stdout (("❌ Error: " ++ str_exn e) ++ nl)]) 0) /\
         exit_status (fst (main w)) <> 0 /\
         network (since w (snd (main w))) = []).
Proof.
  intros w. split.
  - intros Hlen.
    assert (Hrun : main w =
      (Raise (Exit 1),
       advance w
         [Stdout ("Usage: python bedrock_vision.py <path_to_image>" ++ nl);
          Stdout ((nl ++ "Example: python bedrock_vision.py /path/to/image.png") ++ nl)]
         0)).
    { unfold main. rewrite bind_run. unfold sys_argv.
      apply Nat.ltb_lt in Hlen. rewrite Hlen. now run_prims. }
    rewrite Hrun. cbn [fst snd]. rewrite since_advance.
    split; [reflexivity | split; [discriminate | reflexivity]].
  - intros prog image_path rest e Hargv Hfail Hcaught.
    destruct (encode_image_events image_path w) as (es & Hnet & Hrun).
    exists ([Stdout (("🔷 AWS Bedrock - Vision/Image Processing" ++ nl) ++ nl);
             Stdout (("Loading image: " ++ image_path) ++ nl)] ++ es)%list.
    assert (Hmain : main w =
      (Raise (Exit 1),
       advance w
         (([Stdout (("🔷 AWS Bedrock - Vision/Image Processing" ++ nl) ++ nl);
            Stdout (("Loading image: " ++ image_path) ++ nl)] ++ es) ++
          [Stdout (("❌ Error: " ++ str_exn e) ++ nl)]) 0)).
    { unfold main. rewrite bind_run. unfold sys_argv. rewrite Hargv.
      cbn [List.length Nat.ltb Nat.leb nth_error].
      run_prims. rewrite bind_run. unfold try_ at 1.
      rewrite Hrun, Hfail.
      cbn [find fst snd]. rewrite Hcaught. cbn [snd].
      run_prims. reflexivity. }
    rewrite Hmain. cbn [fst snd]. rewrite since_advance.
    split; [reflexivity | split; [discriminate|]].
    rewrite !network_app, Hnet. reflexivity.
Qed.

End VisionMain.

(** ** Lowercasing and the suffix of a path *)

Section LowerSuffix.
Import Py.

Lemma append_nil_r (s : string) : (s ++ "")%string = s.
Proof. induction s as [|c s IH]; cbn; [reflexivity | now rewrite IH]. Qed.

Lemma append_assoc (s t u : string) : ((s ++ t) ++ u)%string = (s ++ (t ++ u))%string.
Proof. induction s as [|c s IH]; cbn; [reflexivity | now rewrite IH]. Qed.

Lemma lower_ascii_slash c : Ascii.eqb (lower_ascii c) "/" = Ascii.eqb c "/".
Proof. destruct c as [[] [] [] [] [] [] [] []]; reflexivity. Qed.

Lemma lower_ascii_dot c : Ascii.eqb (lower_ascii c) "." = Ascii.eqb c ".".
Proof. destruct c as [[] [] [] [] [] [] [] []]; reflexivity. Qed.

Lemma lower_app s t : lower (s ++ t) = (lower s ++ lower t)%string.
Proof. induction s as [|c s IH]; cbn; [reflexivity | now rewrite IH]. Qed.

Lemma length_lower s : String.length (lower s) = String.length s.
Proof. induction s as [|c s IH]; cbn; [reflexivity | now rewrite IH]. Qed.

Lemma split_slash_lower p :
  forall cur, split_slash (lower p) (lower cur) = map lower (split_slash p cur).
Proof.
  induction p as [|c p IH]; intros cur; cbn [lower split_slash map].
  - reflexivity.
  - rewrite lower_ascii_slash. destruct (Ascii.eqb c "/").
    + cbn [map]. now rewrite <- (IH EmptyString).
    + rewrite <- IH, lower_app. reflexivity.
Qed.

Lemma is_component_lower s : is_component (lower s) = is_component s.
Proof.
  unfold is_component.
  destruct s as [|c [|c' s]]; cbn [lower String.eqb]; rewrite ?lower_ascii_dot;
    reflexivity.
Qed.

Lemma filter_components_lower l :
  filter is_component (map lower l) = map lower (filter is_component l).
Proof.
  induction l as [|s l IH]; cbn [map filter]; [reflexivity|].
  rewrite is_component_lower, IH. now destruct (is_component s).
Qed.

Lemma last_lower l : last (map lower l) "" = lower (last l "").
Proof.
  induction l as [|s l IH]; [reflexivity|].
  destruct l as [|s' l]; [reflexivity|].
  exact IH.
Qed.

Lemma name_lower p : name (lower p) = lower (name p).
Proof.
  unfold name. change EmptyString with (lower EmptyString) at 1.
  now rewrite split_slash_lower, filter_components_lower, last_lower.
Qed.

Lemma from_last_dot_lower s :
  from_last_dot (lower s) = option_map lower (from_last_dot s).
Proof.
  induction s as [|c s IH]; cbn [lower from_last_dot option_map]; [reflexivity|].
  rewrite IH. destruct (from_last_dot s); cbn [option_map]; [reflexivity|].
  rewrite lower_ascii_dot. now destruct (Ascii.eqb c ".").
Qed.

Lemma suffix_of_name_lower nm : suffix_of_name (lower nm) = lower (suffix_of_name nm).
Proof.
  destruct nm as [|c rest]; cbn [lower suffix_of_name]; [reflexivity|].
  rewrite from_last_dot_lower.
  destruct (from_last_dot rest) as [t|]; cbn [option_map]; [|reflexivity].
  rewrite length_lower. now destruct (String.length t <=? 1)%nat.
Qed.

(** The suffix of the lowercase form of a path is the lowercase form of
    its suffix. *)
Lemma suffix_lower p : suffix (lower p) = lower (suffix p).
Proof. unfold suffix. now rewrite name_lower, suffix_of_name_lower. Qed.

(** [pathlib]'s examples and a few edge cases. *)
Example suffix_examples :
  map suffix ["photo.png"; "/data/archive.tar.GZ"; ".bashrc"; "shots/";
              "shots/cat.jpeg/"; "Makefile"; "notes."; ".."; ""] =
  [".png"; ".GZ"; ""; ""; ".jpeg"; ""; ""; ""; ""].
Proof. reflexivity. Qed.

(** *** The suffix of a file named [stem.ext] *)

Lemma split_slash_no_slash s :
  occurs "/" s = false -> forall cur, split_slash s cur = [(cur ++ s)%string].
Proof.
  induction s as [|c s IH]; intros Hno cur; cbn [split_slash].
  - now rewrite append_nil_r.
  - cbn [occurs] in Hno. apply orb_false_iff in Hno as [Hc Hs].
    rewrite Hc, (IH Hs), append_assoc. reflexivity.
Qed.

Lemma split_slash_after_slash a t :
  forall cur,
    split_slash (a ++ String "/" t) cur = (split_slash a cur ++ split_slash t "")%list.
Proof.
  induction a as [|c a IH]; intros cur; cbn [append split_slash].
  - reflexivity.
  - destruct (Ascii.eqb c "/"); cbn [app]; now rewrite IH.
Qed.

(** The name of a path is its last component when that one is a proper
    component and what comes before it is empty or ends with a slash. *)
Lemma name_of_last_component dir base :
  dir = "" \/ (exists a, dir = (a ++ "/")%string) ->
  occurs "/" base = false ->
  is_component base = true ->
  name (dir ++ base) = base.
Proof.
  intros Hdir Hno Hcomp. unfold name.
  destruct Hdir as [-> | (a & ->)].
  - cbn [append]. rewrite (split_slash_no_slash base Hno). cbn [append filter].
    now rewrite Hcomp.
  - rewrite append_assoc. cbn [append].
    rewrite split_slash_after_slash, (split_slash_no_slash base Hno), filter_app.
    cbn [append filter]. rewrite Hcomp. apply last_last.
Qed.

Lemma from_last_dot_no_dot s : occurs "." s = false -> from_last_dot s = None.
Proof.
  induction s as [|c s IH]; [reflexivity|]. cbn [occurs from_last_dot].
  intros Hno. apply orb_false_iff in Hno as [Hc Hs]. now rewrite (IH Hs), Hc.
Qed.

Lemma from_last_dot_ext s ext :
  occurs "." ext = false ->
  from_last_dot (s ++ String "." ext) = Some (String "." ext).
Proof.
  intros Hno. induction s as [|c s IH]; cbn [append from_last_dot].
  - now rewrite (from_last_dot_no_dot ext Hno).
  - now rewrite IH.
Qed.

Lemma occurs_app c s t : occurs c (s ++ t) = occurs c s || occurs c t.
Proof.
  induction s as [|c' s IH]; cbn [append occurs]; [reflexivity|].
  now rewrite IH, orb_assoc.
Qed.

(** A file named [stem.ext], in any directory, has the suffix [.ext]. *)
Lemma suffix_of_file dir stem ext :
  dir = "" \/ (exists a, dir = (a ++ "/")%string) ->
  occurs "/" stem = false -> stem <> "" ->
  occurs "/" ext = false -> occurs "." ext = false -> ext <> "" ->
  suffix (dir ++ stem ++ String "." ext) = String "." ext.
Proof.
  intros Hdir Hstem Hnonempty Hext Hdot Hextne. unfold suffix.
  rewrite name_of_last_component.
  - destruct stem as [|c stem]; [contradiction|].
    cbn [append suffix_of_name]. rewrite (from_last_dot_ext stem ext Hdot).
    destruct ext as [|e ext]; [contradiction | reflexivity].
  - exact Hdir.
  - rewrite occurs_app. cbn [occurs]. now rewrite Hstem, Hext.
  - unfold is_component.
    destruct stem as [|c stem]; [contradiction|].
    cbn [append String.eqb negb andb].
    destruct (Ascii.eqb c "."); [|reflexivity].
    now destruct stem.
Qed.

End LowerSuffix.

Section CaseInsensitive.
Import Py Anthropic Script bedrock_vision.

(** C10: the extension looked up is the lowercased suffix of the path,
    which is also the suffix of the lowercase form of the path; a file
    named [stem.EXT] has the extension [.ext], whatever the case of [EXT];
    and two existing files whose suffixes differ only by case get the same
    media type, or the same unsupported-type error. *)
Theorem encode_image_case_insensitive :
  (forall p, extension p = lower (suffix p) /\ extension p = suffix (lower p))
  /\
  (forall dir stem ext,
      dir = "" \/ (exists a, dir = (a ++ "/")%string) ->
      occurs "/" stem = false -> stem <> "" ->
      occurs "/" ext = false -> occurs "." ext = false -> ext <> "" ->
      extension (dir ++ stem ++ String "." ext) = String "." (lower ext))
  /\
  (forall p q w data data',
      lower (suffix p) = lower (suffix q) ->
      fs w p = Some (File data) ->
      fs w q = Some (File data') ->
      exists_at w p = true ->
      exists_at w q = true ->
      media_type_of (fst (encode_image p w)) =
        match dict_get (lower (suffix p)) media_types with
        | Some media_type => Return media_type
        | None => Raise (Exn ValueError ("Unsupported image type: " ++ lower (suffix p)))
        end /\
      media_type_of (fst (encode_image p w)) = media_type_of (fst (encode_image q w))).
Proof.
  split; [|split].
  - intros p. unfold extension. now rewrite suffix_lower.
  - intros dir stem ext Hdir Hstem Hne Hext Hdot Hextne.
    unfold extension. now rewrite suffix_of_file.
  - intros p q w data data' Hcase Hp Hq Hxp Hxq.
    assert (Hlookup : forall r d, fs w r = Some (File d) -> exists_at w r = true ->
              media_type_of (fst (encode_image r w)) =
              match dict_get (lower (suffix r)) media_types with
              | Some media_type => Return media_type
              | None =>
                  Raise (Exn ValueError ("Unsupported image type: " ++ lower (suffix r)))
              end).
    { intros r d Hr Hxr. rewrite encode_image_run, Hxr, Hr.
      unfold extension.
      now destruct (dict_get (lower (suffix r)) media_types). }
    split.
    + exact (Hlookup p data Hp Hxp).
    + rewrite (Hlookup p data Hp Hxp), (Hlookup q data' Hq Hxq), Hcase. reflexivity.
Qed.

End CaseInsensitive.

Section VisionWitnesses.
Import Py Anthropic Script bedrock_vision.

(** The scenarios of the image attachment: a PNG file, and a BMP file. *)
Example encode_image_scenarios :
  media_type_of (fst (encode_image "photo.png" Samples.no_argument)) =
    Return "image/png" /\
  fst (encode_image "file.bmp" Samples.no_argument) =
    Raise (Exn ValueError "Unsupported image type: .bmp").
Proof. split; reflexivity. Qed.

Lemma encode_image_supported_witness :
  exists media_type,
    encode_image "photo.PNG" Samples.no_argument =
      (Return ("Zm9vYg==", media_type),
       advance Samples.no_argument [OpenRead "photo.PNG"] 0) /\
    standard_b64decode "Zm9vYg==" = Some [x66; x6f; x6f; x62] /\
    ((extension "photo.PNG" = ".jpg" /\ media_type = "image/jpeg") \/
     (extension "photo.PNG" = ".jpeg" /\ media_type = "image/jpeg") \/
     (extension "photo.PNG" = ".png" /\ media_type = "image/png") \/
     (extension "photo.PNG" = ".gif" /\ media_type = "image/gif") \/
     (extension "photo.PNG" = ".webp" /\ media_type = "image/webp")).
Proof.
  apply (encode_image_supported "photo.PNG" [x66; x6f; x6f; x62] Samples.no_argument);
    reflexivity.
Defined.

Lemma encode_image_failures_witness :
  encode_image "nowhere.png" Samples.no_argument =
    (Raise (Exn FileNotFoundError "Image file not found: nowhere.png"),
     Samples.no_argument)
  /\
  encode_image "file.bmp" Samples.no_argument =
    (Raise (Exn ValueError "Unsupported image type: .bmp"), Samples.no_argument).
Proof.
  split.
  - exact (proj1 (proj1 (encode_image_failures "nowhere.png" Samples.no_argument) eq_refl)).
  - exact (proj1 (proj2 (encode_image_failures "file.bmp" Samples.no_argument)
                    eq_refl eq_refl)).
Defined.

Lemma vision_main_exits_nonzero_witness :
  exit_status (fst (main Samples.no_argument)) <> 0
  /\
  exists evs,
    main Samples.bmp_argument =
      (Raise (Exit 1),
       advance Samples.bmp_argument
         (evs ++ [Stdout (("❌ Error: " ++ "Unsupported image type: .bmp") ++ nl)]) 0) /\
    exit_status (fst (main Samples.bmp_argument)) <> 0 /\
    network (since Samples.bmp_argument (snd (main Samples.bmp_argument))) = [].
Proof.
  split.
  - refine (proj1 (proj2 (proj1 (vision_main_exits_nonzero Samples.no_argument) _))).
    cbn. lia.
  - apply (proj2 (vision_main_exits_nonzero Samples.bmp_argument)
             "bedrock_vision.py" "file.bmp" []
             (Exn ValueError "Unsupported image type: .bmp")); reflexivity.
Defined.

Lemma encode_image_case_insensitive_witness :
  extension ("shots/" ++ "photo" ++ String "." "Jpg") = ".jpg"
  /\
  (media_type_of (fst (encode_image "photo.PNG" Samples.no_argument)) =
     Return "image/png" /\
   media_type_of (fst (encode_image "photo.PNG" Samples.no_argument)) =
     media_type_of (fst (encode_image "photo.png" Samples.no_argument))).
Proof.
  split.
  - apply (proj1 (proj2 encode_image_case_insensitive) "shots/" "photo" "Jpg");
      try reflexivity; try discriminate.
    right. now exists "shots".
  - apply (proj2 (proj2 encode_image_case_insensitive)
             "photo.PNG" "photo.png" Samples.no_argument
             [x66; x6f; x6f; x62] [x66; x6f; x6f]); reflexivity.
Defined.

End VisionWitnesses.

(** ** bedrock_conversation: the history of a session *)

Section Conversation.
Import Py Anthropic Script bedrock_conversation.
Local Open Scope script_scope.

(** [chat], by the outcome of the remote call. *)
Lemma chat_run user_message s w :
  chat user_message (s, w) =
  let s1 := with_history s (conversation_history s ++ [said user user_message]) in
  let w1 := advance w [MessagesCreate (chat_request s user_message)] 1 in
  match on_create (remote w) (ncalls w) (chat_request s user_message) with
  | Raise e => (Raise e, (s1, w1))
  | Return response =>
      match response_content response with
      | [] => (Raise (Exn IndexError "list index out of range"), (s1, w1))
      | TextBlock text :: _ =>
          (Return text,
           (with_history s (conversation_history s ++
                            [said user user_message; said assistant text]), w1))
      | ToolUseBlock _ _ _ :: _ =>
          (Raise (Exn AttributeError "'ToolUseBlock' object has no attribute 'text'"),
           (s1, w1))
      end
  end.
Proof.
  cbv zeta. unfold chat.
  rewrite bind_run. unfold history_append at 1. cbn [fst snd].
  rewrite bind_run. unfold self at 1. cbn [fst snd].
  rewrite bind_run. unfold in_world at 1. cbn [fst snd].
  rewrite messages_create_run.
  change {| model := session_model _; max_tokens := 512;
            system := Some (system_prompt _); messages := conversation_history _ |}
    with (chat_request s user_message).
  destruct (on_create (remote w) (ncalls w) (chat_request s user_message))
    as [response | e]; [|reflexivity].
  rewrite bind_run. unfold first_text.
  destruct (response_content response) as [|[text | id tool input] blocks];
    try reflexivity.
  unfold ret at 1. rewrite bind_run. unfold history_append. cbn [fst snd].
  unfold ret, with_history, said. cbn. now rewrite <- app_assoc.
Qed.

Lemma chat_returns user_message s w reply st' :
  chat user_message (s, w) = (Return reply, st') ->
  conversation_history (fst st') =
    (conversation_history s ++ [said user user_message; said assistant reply])%list /\
  client (fst st') = client s /\
  session_model (fst st') = session_model s /\
  system_prompt (fst st') = system_prompt s.
Proof.
  rewrite chat_run. cbv zeta.
  destruct (on_create (remote w) (ncalls w) (chat_request s user_message))
    as [response | e]; [|discriminate].
  destruct (response_content response) as [|[text | id tool input] blocks];
    try discriminate.
  intros H. injection H as <- <-. cbn. auto.
Qed.

Lemma exchanges_app l l' : exchanges (l ++ l') = (exchanges l ++ exchanges l')%list.
Proof.
  induction l as [|[u a] l IH]; [reflexivity|]. cbn. now rewrite IH.
Qed.

Lemma length_exchanges l : List.length (exchanges l) = (2 * List.length l)%nat.
Proof.
  induction l as [|[u a] l IH]; [reflexivity|]. cbn [exchanges List.length].
  rewrite IH. lia.
Qed.

Lemma alternates_exchanges l : alternates user (exchanges l) = true.
Proof.
  induction l as [|[u a] l IH]; [reflexivity|]. cbn. exact IH.
Qed.

(** A run of successful calls extends the history by one exchange per
    call, in order. *)
Lemma chats_return user_messages :
  forall s w replies st',
    chats user_messages (s, w) = (Return replies, st') ->
    List.length replies = List.length user_messages /\
    conversation_history (fst st') =
      (conversation_history s ++ exchanges (combine user_messages replies))%list.
Proof.
  induction user_messages as [|u us IH]; intros s w replies st' Hrun.
  - cbn in Hrun. injection Hrun as <- <-. cbn. now rewrite app_nil_r.
  - cbn [chats] in Hrun. rewrite bind_run in Hrun.
    destruct (chat u (s, w)) as [[reply | e] [s1 w1]] eqn:Hchat; [|discriminate].
    rewrite bind_run in Hrun.
    destruct (chats us (s1, w1)) as [[rest | e] st2] eqn:Hrest; [|discriminate].
    injection Hrun as <- <-.
    apply chat_returns in Hchat as (Hh & _). cbn [fst] in Hh.
    apply IH in Hrest as (Hlen & Hh'). split.
    + cbn. now rewrite Hlen.
    + rewrite Hh', Hh. cbn [combine exchanges]. rewrite <- app_assoc. reflexivity.
Qed.

End Conversation.

Section ConversationClaims.
Import Py Anthropic Script bedrock_conversation.
Local Open Scope script_scope.

(** C4: a successful [chat] appends the user message and then the
    assistant message to the history, leaves the earlier entries as they
    were, and returns the text of the assistant message it appended; after
    [n] successful calls on a fresh session the history has [2n] entries,
    which alternate user, assistant, starting with user. *)
Theorem chat_history_grows :
  (forall user_message s w reply st',
      chat user_message (s, w) = (Return reply, st') ->
      conversation_history (fst st') =
        (conversation_history s ++
         [ {| role := user; content := Str user_message |};
           {| role := assistant; content := Str reply |} ])%list)
  /\
  (forall aws_region w0 s w user_messages replies st',
      init aws_region w0 = (Return s, w) ->
      chats user_messages (s, w) = (Return replies, st') ->
      List.length replies = List.length user_messages /\
      conversation_history (fst st') = exchanges (combine user_messages replies) /\
      List.length (conversation_history (fst st')) = (2 * List.length user_messages)%nat /\
      alternates user (conversation_history (fst st')) = true).
Proof.
  split.
  - intros user_message s w reply st' Hrun.
    now apply chat_returns in Hrun as (Hh & _).
  - intros aws_region w0 s w user_messages replies st' Hinit Hrun.
    assert (Hfresh : conversation_history s = []).
    { unfold init in Hinit. rewrite bind_run in Hinit.
      unfold AnthropicBedrock in Hinit. rewrite bind_run, emit_run in Hinit.
      cbn in Hinit. injection Hinit as <- _. reflexivity. }
    apply chats_return in Hrun as (Hlen & Hh).
    rewrite Hfresh in Hh. cbn [app] in Hh.
    split; [exact Hlen|]. split; [exact Hh|]. rewrite Hh. split.
    + rewrite length_exchanges, length_combine, Hlen. lia.
    + apply alternates_exchanges.
Qed.

(** C9: when the remote call raises, [chat] raises the same exception and
    leaves the history one entry longer, ending with the user message just
    appended and with no assistant message for it: from [2n] entries to
    [2n + 1]. *)
Theorem chat_not_atomic_on_error :
  forall user_message s w e n,
    List.length (conversation_history s) = (2 * n)%nat ->
    on_create (remote w) (ncalls w) (chat_request s user_message) = Raise e ->
    exists s' w',
      chat user_message (s, w) = (Raise e, (s', w')) /\
      conversation_history s' =
        (conversation_history s ++ [ {| role := user; content := Str user_message |} ])%list /\
      List.length (conversation_history s') = (2 * n + 1)%nat /\
      last (conversation_history s') {| role := assistant; content := Str "" |} =
        {| role := user; content := Str user_message |}.
Proof.
  intros user_message s w e n Hlen Hcall.
  rewrite chat_run. cbv zeta. rewrite Hcall.
  do 2 eexists. split; [reflexivity|]. cbn [with_history conversation_history].
  split; [reflexivity|]. split.
  - rewrite length_app, Hlen. cbn. lia.
  - apply last_last.
Qed.

Lemma chat_history_grows_witness :
  conversation_history
    (fst (snd (chat "Hello" (Samples.session, Samples.connected)))) =
    [ said user "Hello"; said assistant "Qubits hold superpositions." ]
  /\
  (let st' := snd (chats ["Hello"; "And then?"] (Samples.session, Samples.connected)) in
   List.length (conversation_history (fst st')) = 4%nat /\
   alternates user (conversation_history (fst st')) = true).
Proof.
  split.
  - exact (proj1 chat_history_grows "Hello" Samples.session Samples.connected
             "Qubits hold superpositions."
             (snd (chat "Hello" (Samples.session, Samples.connected))) eq_refl).
  - cbv zeta.
    destruct (proj2 chat_history_grows "us-west-2" Samples.answering
                Samples.session Samples.connected ["Hello"; "And then?"]
                ["Qubits hold superpositions."; "Qubits hold superpositions."]
                (snd (chats ["Hello"; "And then?"] (Samples.session, Samples.connected)))
                eq_refl eq_refl) as (_ & _ & Hlen & Halt).
    split; [exact Hlen | exact Halt].
Defined.

Lemma chat_not_atomic_on_error_witness :
  exists s' w',
    chat "Hello" (Samples.session, Samples.disconnected) =
      (Raise (Exn APIError "Connection error."), (s', w')) /\
    conversation_history s' = [ said user "Hello" ] /\
    List.length (conversation_history s') = 1%nat /\
    last (conversation_history s') (said assistant "") = said user "Hello".
Proof.
  apply (chat_not_atomic_on_error "Hello" Samples.session Samples.disconnected
           (Exn APIError "Connection error.") 0); reflexivity.
Defined.

End ConversationClaims.

(** ** The streaming scripts *)

Section StreamAccumulation.
Import Py Anthropic Script Streaming.
Local Open Scope script_scope.

Lemma full_text_app c c' : full_text (c ++ c') = (full_text c ++ full_text c')%string.
Proof.
  induction c as [|[text | id tool input] c IH]; cbn; [reflexivity | | exact IH].
  now rewrite IH, append_assoc.
Qed.

Lemma stdout_written texts : stdout (written texts) = join texts.
Proof.
  unfold written.
  induction texts as [|t texts IH]; cbn [map stdout join]; [reflexivity|].
  now rewrite IH, append_nil_r.
Qed.

(** Updating the last block. *)
Lemma update_block_last f pre b :
  update_block (List.length pre) f (pre ++ [b]) = Some (pre ++ [f b])%list.
Proof.
  induction pre as [|x pre IH]; cbn; [reflexivity | now rewrite IH].
Qed.

(** Updating a block in range succeeds; when [f] keeps the kind and the
    text of a block, the kinds and the full text are kept. *)
Lemma update_block_in_range f :
  (forall b, is_text_block (f b) = is_text_block b) ->
  (forall b, full_text [f b] = full_text [b]) ->
  forall c index,
    (index < List.length c)%nat ->
    exists c',
      update_block index f c = Some c' /\
      List.length c' = List.length c /\
      map is_text_block c' = map is_text_block c /\
      full_text c' = full_text c.
Proof.
  intros Hkind Htext c. induction c as [|b c IH]; intros index Hlt; [cbn in Hlt; lia|].
  destruct index as [|index].
  - exists (f b :: c). cbn [update_block List.length map]. rewrite Hkind.
    repeat split.
    change (f b :: c) with ([f b] ++ c)%list. change (b :: c) with ([b] ++ c)%list.
    now rewrite !full_text_app, Htext.
  - destruct (IH index) as (c' & Hup & Hlen & Hkinds & Hfull); [cbn in Hlt; lia|].
    exists (b :: c'). cbn [update_block List.length map]. rewrite Hup, Hlen, Hkinds.
    repeat split.
    change (b :: c') with ([b] ++ c')%list. change (b :: c) with ([b] ++ c)%list.
    now rewrite !full_text_app, Hfull.
Qed.

Lemma apply_delta_kind d b : is_text_block (apply_delta d b) = is_text_block b.
Proof. destruct b, d; reflexivity. Qed.

Lemma apply_json_text j b : full_text [apply_delta (InputJsonDelta j) b] = full_text [b].
Proof. destruct b; reflexivity. Qed.

(** A content that ends with a text block. *)
Lemma ends_with_text c :
  last (map is_text_block c) false = true ->
  exists pre text, c = (pre ++ [TextBlock text])%list.
Proof.
  intros Hlast.
  assert (Hne : c <> []) by (intros ->; discriminate Hlast).
  destruct (exists_last Hne) as (pre & b & ->).
  rewrite map_app in Hlast. cbn [map] in Hlast. rewrite last_last in Hlast.
  destruct b as [text | id tool input]; [|discriminate Hlast].
  now exists pre, text.
Qed.

End StreamAccumulation.

Section StreamConsumer.
Import Py Anthropic Script Streaming.
Local Open Scope script_scope.

Lemma print_end_run text w :
  print_end text "" w = (Return tt, advance w (written [text]) 0).
Proof. apply emit_run. Qed.

(** The loop over a stream that follows the protocol: every fragment is
    written once, in arrival order, and appended to the text of the
    snapshot. *)
Lemma text_stream_events_in_order events :
  forall m nblocks last_is_text,
    blocks_in_order nblocks last_is_text events = true ->
    List.length (response_content m) = nblocks ->
    last (map is_text_block (response_content m)) false = last_is_text ->
    exists m',
      (forall w,
         text_stream_events (fun text => print_end text "") events (Some m) w =
         (Return {| pending := []; snapshot := Some m' |},
          advance w (written (fragments events)) 0)) /\
      full_text (response_content m') =
        (full_text (response_content m) ++ join (fragments events))%string.
Proof.
  induction events as [|ev events IH]; intros m nblocks last_is_text Hok Hlen Hlast.
  - exists m. split.
    + intros w. cbn. now rewrite advance_nothing.
    + cbn. now rewrite append_nil_r.
  - destruct ev as [start | index block | index delta | index | stop out | ];
      cbn [blocks_in_order] in Hok.
    + discriminate Hok.
    + (* a block starts *)
      destruct block as [text | id tool input].
      * apply andb_prop in Hok as [Hempty Hok].
        apply String.eqb_eq in Hempty. subst text.
        destruct (IH (with_content m (response_content m ++ [TextBlock ""]))
                    (S nblocks) true Hok) as (m' & Hrun & Hfull).
        { cbn. rewrite length_app, Hlen. cbn. lia. }
        { cbn. rewrite map_app. cbn [map]. apply last_last. }
        exists m'. split.
        -- intros w. cbn [text_stream_events accumulate_event fragments].
           rewrite bind_run. unfold ret at 1. cbv beta iota. apply Hrun.
        -- rewrite Hfull. cbn [with_content response_content fragments].
           rewrite full_text_app. cbn [full_text]. now rewrite !append_nil_r.
      * destruct (IH (with_content m (response_content m ++ [ToolUseBlock id tool input]))
                    (S nblocks) false Hok) as (m' & Hrun & Hfull).
        { cbn. rewrite length_app, Hlen. cbn. lia. }
        { cbn. rewrite map_app. cbn [map]. apply last_last. }
        exists m'. split.
        -- intros w. cbn [text_stream_events accumulate_event fragments].
           rewrite bind_run. unfold ret at 1. cbv beta iota. apply Hrun.
        -- rewrite Hfull. cbn [with_content response_content fragments].
           rewrite full_text_app. cbn [full_text]. now rewrite !append_nil_r.
    + destruct delta as [text | json].
      * (* a text fragment *)
        apply andb_prop in Hok as [Hhere Hok]. apply andb_prop in Hhere as [Htext Hindex].
        rewrite Htext in Hok, Hlast. apply Nat.eqb_eq in Hindex.
        destruct (ends_with_text _ Hlast) as (pre & text0 & Hcontent).
        assert (Hpre : List.length pre = index).
        { rewrite Hcontent, length_app in Hlen. cbn in Hlen. lia. }
        destruct (IH (with_content m (pre ++ [TextBlock (text0 ++ text)]))
                    nblocks true Hok) as (m' & Hrun & Hfull).
        { cbn. rewrite length_app. cbn. lia. }
        { cbn. rewrite map_app. cbn [map]. apply last_last. }
        exists m'. split.
        -- intros w. cbn [text_stream_events accumulate_event fragments].
           rewrite Hcontent, <- Hpre, update_block_last. cbn [apply_delta].
           rewrite bind_run, print_end_run, Hrun, advance_advance. reflexivity.
        -- rewrite Hfull, Hcontent. cbn [with_content response_content join fragments].
           rewrite !full_text_app. cbn [full_text].
           now rewrite !append_nil_r, !append_assoc.
      * (* part of the input of a tool call *)
        apply andb_prop in Hok as [Hindex Hok]. apply Nat.ltb_lt in Hindex.
        destruct (update_block_in_range (apply_delta (InputJsonDelta json))
                    (apply_delta_kind _) (apply_json_text json)
                    (response_content m) index ltac:(lia))
          as (c' & Hup & Hlen' & Hkinds & Hfull').
        destruct (IH (with_content m c') nblocks last_is_text Hok)
          as (m' & Hrun & Hfull).
        { cbn. lia. }
        { cbn. now rewrite Hkinds. }
        exists m'. split.
        -- intros w. cbn [text_stream_events accumulate_event fragments]. rewrite Hup.
           rewrite bind_run. unfold ret at 1. cbv beta iota. apply Hrun.
        -- rewrite Hfull. cbn [with_content response_content fragments].
           now rewrite Hfull'.
    + destruct (IH m nblocks last_is_text Hok Hlen Hlast) as (m' & Hrun & Hfull).
      exists m'. split; [|exact Hfull].
      intros w. cbn [text_stream_events accumulate_event fragments].
      rewrite bind_run. unfold ret at 1. cbv beta iota. apply Hrun.
    + destruct (IH {| response_content := response_content m;
                      usage := {| input_tokens := input_tokens (usage m);
                                  output_tokens := out |};
                      stop_reason := stop |} nblocks last_is_text Hok Hlen Hlast)
        as (m' & Hrun & Hfull).
      exists m'. split; [|exact Hfull].
      intros w. cbn [text_stream_events accumulate_event fragments].
      rewrite bind_run. unfold ret at 1. cbv beta iota. apply Hrun.
    + destruct (IH m nblocks last_is_text Hok Hlen Hlast) as (m' & Hrun & Hfull).
      exists m'. split; [|exact Hfull].
      intros w. cbn [text_stream_events accumulate_event fragments].
      rewrite bind_run. unfold ret at 1. cbv beta iota. apply Hrun.
Qed.

End StreamConsumer.

Section StreamingClaims.
Import Py Anthropic Script Streaming.
Local Open Scope script_scope.

(** The consumer loop on a fresh stream, and the final message read after
    it. *)
Lemma consume_stream events :
  protocol events = true ->
  exists final,
    (forall w,
       for_text_stream {| pending := events; snapshot := None |}
         (fun text => print_end text "") w =
       (Return {| pending := []; snapshot := Some final |},
        advance w (written (fragments events)) 0)) /\
    (forall w, get_final_message {| pending := []; snapshot := Some final |} w =
               (Return final, w)) /\
    full_text (response_content final) = join (fragments events).
Proof.
  intros Hok. unfold protocol in Hok.
  destruct events as [|[m0 | | | | | ] events]; try discriminate Hok.
  destruct (response_content m0) as [|b c] eqn:Hempty; [|discriminate Hok].
  destruct (text_stream_events_in_order events m0 0%nat false Hok)
    as (final & Hrun & Hfull).
  { now rewrite Hempty. }
  { now rewrite Hempty. }
  exists final. split; [|split].
  - intros w. unfold for_text_stream.
    cbn [pending snapshot text_stream_events accumulate_event].
    rewrite bind_run. unfold ret at 1. cbv beta iota. apply Hrun.
  - intros w. reflexivity.
  - rewrite Hfull, Hempty. reflexivity.
Qed.

(** The stream a script gets when the service answers with [events]. *)
Lemma messages_stream_run client req events w :
  on_stream (remote w) (ncalls w) req = Return events ->
  messages_stream client req w =
  (Return {| pending := events; snapshot := None |}, advance w [MessagesStream req] 1).
Proof.
  intros Hstream. unfold messages_stream.
  now rewrite Hstream, log_advance, count_call_advance, advance_advance.
Qed.

(** C7: for a stream that follows the service's event protocol, the
    consumer writes each delivered fragment once, in arrival order, and
    what it wrote is the full text of the final message that
    [get_final_message] returns once the stream is exhausted; both
    streaming scripts write exactly that between the line announcing the
    response and the token usage of the final message. *)
Theorem streamed_text_is_final_text :
  forall events,
    protocol events = true ->
    exists final,
      (forall w,
         for_text_stream {| pending := events; snapshot := None |}
           (fun text => print_end text "") w =
         (Return {| pending := []; snapshot := Some final |},
          advance w (written (fragments events)) 0)) /\
      (forall w, get_final_message {| pending := []; snapshot := Some final |} w =
                 (Return final, w)) /\
      stdout (written (fragments events)) = full_text (response_content final) /\
      join (fragments events) = full_text (response_content final) /\
      (forall w,
         on_stream (remote w) (ncalls w) bedrock_streaming.request = Return events ->
         bedrock_streaming.main w =
           (Return tt,
            advance w
              ([NewClient (Bedrock "us-west-2");
                Stdout (("🔷 AWS Bedrock - Streaming Response" ++ nl) ++ nl);
                Stdout (("Prompt: " ++ bedrock_streaming.prompt ++ nl) ++ nl);
                Stdout (("Response (streaming):" ++ nl) ++ nl);
                MessagesStream bedrock_streaming.request] ++
               written (fragments events) ++
               [Stdout ((nl ++ nl ++ "📊 Token Usage:") ++ nl);
                Stdout (("  Input tokens: " ++ str (input_tokens (usage final))) ++ nl);
                Stdout (("  Output tokens: " ++ str (output_tokens (usage final))) ++ nl)])
              1)) /\
      (forall w,
         on_stream (remote w) (ncalls w) vertex_ai_streaming.request = Return events ->
         vertex_ai_streaming.main w =
           (Return tt,
            advance w
              ([NewClient (Vertex "YOUR_PROJECT_ID" "global");
                Stdout (("🔵 Google Vertex AI - Streaming Response" ++ nl) ++ nl);
                Stdout (("Prompt: " ++ vertex_ai_streaming.prompt ++ nl) ++ nl);
                Stdout (("Response (streaming):" ++ nl) ++ nl);
                MessagesStream vertex_ai_streaming.request] ++
               written (fragments events) ++
               [Stdout ((nl ++ nl ++ "📊 Token Usage:") ++ nl);
                Stdout (("  Input tokens: " ++ str (input_tokens (usage final))) ++ nl);
                Stdout (("  Output tokens: " ++ str (output_tokens (usage final))) ++ nl)])
              1)).
Proof.
  intros events Hok.
  destruct (consume_stream events Hok) as (final & Hloop & Hfinal & Hfull).
  exists final.
  split; [exact Hloop|]. split; [exact Hfinal|].
  split; [now rewrite stdout_written|]. split; [now rewrite Hfull|].
  split.
  - intros w Hstream. unfold bedrock_streaming.main, AnthropicBedrock.
    rewrite !bind_run, emit_run. unfold ret at 1. cbv beta iota.
    run_prims. rewrite bind_run.
    rewrite (messages_stream_run _ _ events)
      by (cbn [remote ncalls advance]; now rewrite Nat.add_0_r).
    rewrite bind_run, Hloop, bind_run, Hfinal, !advance_advance.
    run_prims. reflexivity.
  - intros w Hstream. unfold vertex_ai_streaming.main, AnthropicVertex.
    rewrite !bind_run, emit_run. unfold ret at 1. cbv beta iota.
    run_prims. rewrite bind_run.
    rewrite (messages_stream_run _ _ events)
      by (cbn [remote ncalls advance]; now rewrite Nat.add_0_r).
    rewrite bind_run, Hloop, bind_run, Hfinal, !advance_advance.
    run_prims. reflexivity.
Qed.

End StreamingClaims.

Section StreamingWitness.
Import Py Anthropic Script Streaming.

(** Every finite sequence of fragments is delivered by some stream that
    follows the protocol. *)
Lemma fragments_realisable m0 texts :
  response_content m0 = [] ->
  protocol (one_text_block m0 texts) = true /\
  fragments (one_text_block m0 texts) = texts.
Proof.
  intros Hempty. unfold one_text_block, protocol. cbn [app]. rewrite Hempty.
  cbn [blocks_in_order fragments String.eqb andb].
  induction texts as [|t texts IH]; [split; reflexivity|].
  cbn [map app blocks_in_order fragments Nat.eqb andb].
  destruct IH as [Hok Hfr]. split; [exact Hok | now rewrite Hfr].
Qed.

Lemma streamed_text_is_final_text_witness :
  exists final,
    stdout (written (fragments Samples.haiku_events)) =
      full_text (response_content final) /\
    full_text (response_content final) = "Silicon dreams awake" /\
    snd (bedrock_streaming.main Samples.streaming) =
      advance Samples.streaming
        ([NewClient (Bedrock "us-west-2");
          Stdout (("🔷 AWS Bedrock - Streaming Response" ++ nl) ++ nl);
          Stdout (("Prompt: " ++ bedrock_streaming.prompt ++ nl) ++ nl);
          Stdout (("Response (streaming):" ++ nl) ++ nl);
          MessagesStream bedrock_streaming.request] ++
         written ["Silicon "; "dreams "; "awake"] ++
         [Stdout ((nl ++ nl ++ "📊 Token Usage:") ++ nl);
          Stdout (("  Input tokens: " ++ str (input_tokens (usage final))) ++ nl);
          Stdout (("  Output tokens: " ++ str (output_tokens (usage final))) ++ nl)])
        1.
Proof.
  destruct (streamed_text_is_final_text Samples.haiku_events eq_refl)
    as (final & _ & _ & Hout & _ & Hbedrock & _).
  exists final. split; [exact Hout|]. split.
  - rewrite <- Hout. reflexivity.
  - rewrite (Hbedrock Samples.streaming eq_refl). reflexivity.
Defined.

End StreamingWitness.

(* ===================================================================== *)
(** * Further properties of the scripts *)
(* ===================================================================== *)

(** ** bedrock_error_handling: the loop against any service *)

Section RetryAnyService.
Import Py Anthropic Script bedrock_error_handling.
Local Open Scope script_scope.

Variable client : Client.
Variable max_retries : Z.

(** Whatever the service answers, the loop over the attempts [a .. a + n]
    stops after some attempt [a + k]: the [k] attempts before it were each
    followed by their backoff, and the outcome of the call of that attempt
    is the outcome of the loop. *)
Lemma retry_loop_any n :
  forall a w,
    max_retries = Z.of_nat (a + S n) ->
    exists k evs,
      (k <= n)%nat /\
      retry_loop client max_retries (map Z.of_nat (seq a (S n))) w =
        (on_create (remote w) (ncalls w + k) request, advance w evs (S k)) /\
      timeline evs = (backoffs (map Z.of_nat (seq a k)) ++ [inl tt])%list /\
      sleeps evs = map (Z.pow 2) (map Z.of_nat (seq a k)) /\
      network evs = repeat (MessagesCreate request) (S k).
Proof.
  induction n as [|n IH]; intros a w Hmax.
  - cbn [seq map]. rewrite retry_loop_step. cbv zeta.
    replace (Z.of_nat a <? max_retries - 1) with false
      by (symmetry; apply Z.ltb_ge; lia).
    exists 0%nat. rewrite Nat.add_0_r.
    destruct (on_create (remote w) (ncalls w) request) as [response | e].
    { eexists. split; [lia|]. split; [reflexivity|]. now repeat split. }
    rewrite andb_false_r.
    destruct (isinstance e RateLimitError);
      [|destruct (isinstance e APIError); [|destruct (isinstance e Exception)]];
      (eexists; split; [lia|]; split; [reflexivity|]; now repeat split).
  - remember (S n) as m eqn:Hm. cbn [seq map]. rewrite retry_loop_step. cbv zeta.
    replace (Z.of_nat a <? max_retries - 1) with true
      by (symmetry; apply Z.ltb_lt; lia).
    assert (Hstop : forall r evs,
               on_create (remote w) (ncalls w) request = r ->
               timeline evs = [inl tt] -> sleeps evs = [] ->
               network evs = [MessagesCreate request] ->
               exists k evs',
                 (k <= m)%nat /\
                 (r, advance w evs 1) =
                   (on_create (remote w) (ncalls w + k) request, advance w evs' (S k)) /\
                 timeline evs' = (backoffs (map Z.of_nat (seq a k)) ++ [inl tt])%list /\
                 sleeps evs' = map (Z.pow 2) (map Z.of_nat (seq a k)) /\
                 network evs' = repeat (MessagesCreate request) (S k)).
    { intros r evs Hr Htl Hsl Hnet. exists 0%nat, evs.
      rewrite Nat.add_0_r, Hr. split; [lia|]. now repeat split. }
    assert (Hgo : forall line,
               exists k evs',
                 (k <= m)%nat /\
                 retry_loop client max_retries (map Z.of_nat (seq (S a) m))
                   (advance w
                      ([Stdout (("Attempt " ++ str (Z.of_nat a + 1) ++ "/"
                                 ++ str max_retries ++ "...") ++ nl);
                        MessagesCreate request] ++
                       [Stdout line; Sleep (2 ^ Z.of_nat a)]) 1) =
                   (on_create (remote w) (ncalls w + k) request, advance w evs' (S k)) /\
                 timeline evs' = (backoffs (map Z.of_nat (seq a k)) ++ [inl tt])%list /\
                 sleeps evs' = map (Z.pow 2) (map Z.of_nat (seq a k)) /\
                 network evs' = repeat (MessagesCreate request) (S k)).
    { intros line. subst m.
      match goal with |- context [retry_loop _ _ _ ?w1] =>
        destruct (IH (S a) w1 ltac:(lia)) as (k & evs & Hk & Hrun & Htl & Hsl & Hnet)
      end.
      exists (S k). eexists. split; [lia|]. split; [|split; [|split]].
      - rewrite Hrun, advance_advance. cbn [remote ncalls advance].
        replace (ncalls w + 1 + k)%nat with (ncalls w + S k)%nat by lia.
        reflexivity.
      - cbn [app]. cbn [timeline]. rewrite Htl. reflexivity.
      - cbn [app]. cbn [sleeps]. rewrite Hsl. reflexivity.
      - cbn [app]. unfold network in *. cbn [filter is_network].
        rewrite Hnet. reflexivity. }
    destruct (on_create (remote w) (ncalls w) request) as [response | e] eqn:Hcall.
    { now apply Hstop. }
    rewrite andb_true_r.
    destruct (isinstance e RateLimitError); [apply Hgo|].
    destruct (isinstance e APIError).
    + destruct (contains "ThrottlingException" (str_exn e)); [apply Hgo | now apply Hstop].
    + destruct (isinstance e Exception); now apply Hstop.
Qed.

Lemma sum_pow2 k a :
  fold_right Z.add 0 (map (Z.pow 2) (map Z.of_nat (seq a k))) =
  2 ^ Z.of_nat (a + k) - 2 ^ Z.of_nat a.
Proof.
  revert a. induction k as [|k IH]; intros a; cbn [seq map fold_right].
  - rewrite Nat.add_0_r. lia.
  - rewrite IH. replace (a + S k)%nat with (S a + k)%nat by lia.
    replace (Z.of_nat (S a)) with (Z.of_nat a + 1) by lia.
    rewrite Z.pow_add_r by lia. lia.
Qed.

End RetryAnyService.

Section RetryThree.
Import Py Anthropic Script bedrock_error_handling.


End RetryThree.

Section RetryExtras.
Import Py Anthropic Script bedrock_error_handling.
Local Open Scope script_scope.

(** X1: whatever the service does, a call with [max_retries >= 1] makes
    between one and [max_retries] remote calls, sleeps [2^0, 2^1, ...]
    seconds between them and not after the last, and ends with the outcome
    of its last remote call: its response, or the very exception it
    raised. *)
Theorem call_with_retry_schedule :
  forall client max_retries w,
    1 <= max_retries ->
    exists k evs,
      (k < Z.to_nat max_retries)%nat /\
      call_with_retry client max_retries w =
        (on_create (remote w) (ncalls w + k) request, advance w evs (S k)) /\
      timeline evs = (backoffs (range (Z.of_nat k)) ++ [inl tt])%list /\
      sleeps evs = map (Z.pow 2) (range (Z.of_nat k)) /\
      network evs = repeat (MessagesCreate request) (S k).
Proof.
  intros client max_retries w Hmax.
  destruct (retry_loop_any client max_retries (Z.to_nat max_retries - 1) 0%nat w)
    as (k & evs & Hk & Hrun & Htl & Hsl & Hnet); [lia|].
  exists k, evs. unfold call_with_retry, range. rewrite Nat2Z.id.
  replace (Z.to_nat max_retries) with (S (Z.to_nat max_retries - 1)) by lia.
  split; [lia|]. now repeat split.
Qed.

(** X2: the time a call spends sleeping is [2^k - 1] seconds when it made
    [k + 1] remote calls, hence at most [2^(max_retries - 1) - 1]. *)
Theorem call_with_retry_total_sleep :
  forall client max_retries w,
    1 <= max_retries ->
    exists k,
      ncalls (snd (call_with_retry client max_retries w)) = (ncalls w + S k)%nat /\
      fold_right Z.add 0
        (sleeps (since w (snd (call_with_retry client max_retries w)))) =
        2 ^ Z.of_nat k - 1 /\
      2 ^ Z.of_nat k - 1 <= 2 ^ (max_retries - 1) - 1.
Proof.
  intros client max_retries w Hmax. unfold call_with_retry, range.
  replace (Z.to_nat max_retries) with (S (Z.to_nat max_retries - 1)) by lia.
  destruct (retry_loop_any client max_retries (Z.to_nat max_retries - 1) 0%nat w)
    as (k & evs & Hk & Hrun & Htl & Hsl & Hnet); [lia|].
  exists k. rewrite Hrun. cbn [snd]. rewrite since_advance, Hsl, sum_pow2.
  split; [reflexivity|]. split; [cbn [Nat.add Z.of_nat Z.pow]; lia|].
  apply Z.sub_le_mono_r. apply Z.pow_le_mono_r; lia.
Qed.

(** X3: with [max_retries <= 0] the loop has no attempt: the call raises
    the closing exception without printing, calling or sleeping. *)
Theorem call_with_retry_no_attempt :
  forall client max_retries w,
    max_retries <= 0 ->
    call_with_retry client max_retries w =
      (Raise (Exn Exception "Failed after max retries"), w).
Proof.
  intros client max_retries w Hmax. unfold call_with_retry, range.
  replace (Z.to_nat max_retries) with 0%nat by lia. reflexivity.
Qed.

(** X4: when the first [k] attempts raise rate-limit or throttling errors
    and attempt [k + 1], still within [max_retries], is answered, the call
    returns that answer after sleeping [2^0 .. 2^(k-1)] seconds, one sleep
    after each failed attempt. *)
Theorem call_with_retry_recovers :
  forall client max_retries w k response,
    (k < Z.to_nat max_retries)%nat ->
    (forall j, (j < k)%nat ->
       exists e, on_create (remote w) (ncalls w + j) request = Raise e /\
                 retryable e = true) ->
    on_create (remote w) (ncalls w + k) request = Return response ->
    exists evs,
      call_with_retry client max_retries w = (Return response, advance w evs (S k)) /\
      timeline evs = (backoffs (range (Z.of_nat k)) ++ [inl tt])%list /\
      sleeps evs = map (Z.pow 2) (range (Z.of_nat k)).
Proof.
  intros client max_retries w k response Hk Hretried Hcall.
  unfold call_with_retry, range.
  replace (Z.to_nat max_retries) with (k + S (Z.to_nat max_retries - S k))%nat by lia.
  rewrite seq_app, map_app. cbn [seq map Nat.add].
  destruct (retry_loop_retried client max_retries k 0%nat w
              (Z.of_nat k :: map Z.of_nat (seq (S k) (Z.to_nat max_retries - S k))))
    as (evs & Hrun & Htl & Hsl); [lia | exact Hretried |].
  rewrite Hrun, retry_loop_step. cbv zeta. cbn [remote ncalls advance].
  rewrite Hcall, advance_advance.
  eexists. split; [|split].
  - f_equal. f_equal. lia.
  - rewrite timeline_app, Htl, Nat2Z.id. reflexivity.
  - rewrite sleeps_app, Hsl, Nat2Z.id. cbn. now rewrite app_nil_r.
Qed.


End RetryExtras.

Section RetryExtrasWitnesses.
Import Py Anthropic Script bedrock_error_handling.

Lemma call_with_retry_schedule_witness :
  exists k evs,
    (k < Z.to_nat 3)%nat /\
    call_with_retry (Bedrock "us-west-2") 3 Samples.recovering =
      (on_create (remote Samples.recovering) (ncalls Samples.recovering + k) request,
       advance Samples.recovering evs (S k)) /\
    timeline evs = (backoffs (range (Z.of_nat k)) ++ [inl tt])%list /\
    sleeps evs = map (Z.pow 2) (range (Z.of_nat k)) /\
    network evs = repeat (MessagesCreate request) (S k).
Proof.
  apply (call_with_retry_schedule (Bedrock "us-west-2") 3 Samples.recovering). lia.
Defined.

Lemma call_with_retry_total_sleep_witness :
  exists k,
    ncalls (snd (call_with_retry (Bedrock "us-west-2") 3 Samples.rate_limited)) =
      (ncalls Samples.rate_limited + S k)%nat /\
    fold_right Z.add 0
      (sleeps (since Samples.rate_limited
                 (snd (call_with_retry (Bedrock "us-west-2") 3 Samples.rate_limited)))) =
      2 ^ Z.of_nat k - 1 /\
    2 ^ Z.of_nat k - 1 <= 2 ^ (3 - 1) - 1.
Proof.
  apply (call_with_retry_total_sleep (Bedrock "us-west-2") 3 Samples.rate_limited). lia.
Defined.

Lemma call_with_retry_no_attempt_witness :
  call_with_retry (Bedrock "us-west-2") 0 Samples.answering =
    (Raise (Exn Exception "Failed after max retries"), Samples.answering).
Proof.
  apply (call_with_retry_no_attempt (Bedrock "us-west-2") 0 Samples.answering). lia.
Defined.

Lemma call_with_retry_recovers_witness :
  exists evs,
    call_with_retry (Bedrock "us-west-2") 5 Samples.recovering =
      (Return Samples.answer, advance Samples.recovering evs 3) /\
    timeline evs = [inl tt; inr 1; inl tt; inr 2; inl tt] /\
    sleeps evs = [1; 2].
Proof.
  apply (call_with_retry_recovers (Bedrock "us-west-2") 5 Samples.recovering 2
           Samples.answer).
  - cbn. lia.
  - intros j Hj. exists (Exn RateLimitError "Error code: 429").
    destruct j as [|[|j]]; [split; reflexivity | split; reflexivity | lia].
  - reflexivity.
Defined.


End RetryExtrasWitnesses.

(** ** bedrock_vision: the whole script *)

Section VisionScript.
Import Py Anthropic Script bedrock_vision.
Local Open Scope script_scope.

(** [main] with a path argument, by the outcome of [encode_image] and of
    the remote call. *)
Lemma vision_main_run prog image_path rest w :
  argv w = prog :: image_path :: rest ->
  exists es,
    network es = [] /\
    (forall evs k,
       encode_image image_path (advance w evs k) =
       (fst (encode_image image_path w), advance w (evs ++ es) k)) /\
    main w =
    let loading :=
      ([Stdout (("🔷 AWS Bedrock - Vision/Image Processing" ++ nl) ++ nl);
       Stdout (("Loading image: " ++ image_path) ++ nl)] ++ es)%list in
    match fst (encode_image image_path w) with
    | Raise e =>
        if handles e [FileNotFoundError; ValueError] then
          (Raise (Exit 1),
           advance w (loading ++ [Stdout (("❌ Error: " ++ str_exn e) ++ nl)])%list 0)
        else (Raise e, advance w loading 0)
    | Return (image_data, media_type) =>
        let asked :=
          (loading ++
           [NewClient (Bedrock "us-west-2");
            Stdout (("Analyzing image with Claude..." ++ nl) ++ nl);
            MessagesCreate (request image_data media_type)])%list in
        match on_create (remote w) (ncalls w) (request image_data media_type) with
        | Raise e => (Raise e, advance w asked 1)
        | Return response =>
            match response_content response with
            | [] =>
                (Raise (Exn IndexError "list index out of range"),
                 advance w (asked ++ [Stdout (("✅ Analysis:" ++ nl) ++ nl)])%list 1)
            | TextBlock text :: _ =>
                (Return tt,
                 advance w
                   (asked ++
                    [Stdout (("✅ Analysis:" ++ nl)%string ++ nl);
                     Stdout (text ++ nl);
                     Stdout ((nl ++ "📊 Token Usage:") ++ nl);
                     Stdout (("  Input tokens: "
                              ++ str (input_tokens (usage response))) ++ nl);
                     Stdout (("  Output tokens: "
                              ++ str (output_tokens (usage response))) ++ nl)]) 1)
            | ToolUseBlock _ _ _ :: _ =>
                (Raise (Exn AttributeError
                          "'ToolUseBlock' object has no attribute 'text'"),
                 advance w (asked ++ [Stdout (("✅ Analysis:" ++ nl) ++ nl)])%list 1)
            end
        end
    end.
Proof.
  intros Hargv.
  destruct (encode_image_events image_path w) as (es & Hnet & Hrun).
  exists es. split; [exact Hnet|]. split; [exact Hrun|]. cbv zeta.
  unfold main. rewrite bind_run. unfold sys_argv. rewrite Hargv.
  cbn [List.length Nat.ltb Nat.leb nth_error].
  run_prims. rewrite bind_run. unfold try_ at 1. rewrite Hrun.
  destruct (fst (encode_image image_path w)) as [[image_data media_type] | e].
  - unfold AnthropicBedrock. rewrite !bind_run, emit_run. unfold ret at 1.
    cbv beta iota. run_prims. rewrite bind_run, messages_create_run.
    cbn [remote ncalls advance]. rewrite Nat.add_0_r, advance_advance.
    cbn [app Nat.add].
    destruct (on_create (remote w) (ncalls w) (request image_data media_type))
      as [response | e]; [|now rewrite <- ?app_assoc].
    run_prims. rewrite bind_run. unfold first_text.
    destruct (response_content response) as [|[text | id tool input] blocks];
      cbn [raise ret]; run_prims; rewrite ?advance_advance, <- ?app_assoc;
      cbn [app Nat.add]; reflexivity.
  - cbn [find fst snd].
    destruct (handles e [FileNotFoundError; ValueError]); cbn [snd].
    + run_prims. rewrite <- ?app_assoc. reflexivity.
    + reflexivity.
Qed.

End VisionScript.

Section VisionExtras.
Import Py Anthropic Script bedrock_vision.
Local Open Scope script_scope.

Lemma advance_events_inj w es es' k k' :
  advance w es k = advance w es' k' -> es = es'.
Proof.
  unfold advance. intros H. injection H as _ Htrace.
  now apply app_inv_head in Htrace.
Qed.

(** A path that designates something and has an extension of the table
    exists for [Path.exists]. *)
Lemma exists_when_designated w image_path n media_type :
  fs w image_path = Some n ->
  dict_get (extension image_path) media_types = Some media_type ->
  exists_at w image_path = true.
Proof.
  intros Hfs Hget. unfold exists_at.
  destruct (String.eqb_spec image_path "") as [-> | _]; [discriminate Hget|].
  now rewrite Hfs.
Qed.

(** [encode_image] has the same outcome and adds the same events in any
    later world. *)
Lemma encode_image_anywhere image_path w r es :
  encode_image image_path w = (r, advance w es 0) ->
  forall evs k,
    encode_image image_path (advance w evs k) = (r, advance w (evs ++ es) k).
Proof.
  intros Hrun.
  destruct (encode_image_events image_path w) as (es0 & _ & Hany).
  pose proof (Hany [] 0%nat) as H0. rewrite advance_nothing, Hrun in H0.
  apply (f_equal snd) in H0. cbn [fst snd app] in H0.
  apply advance_events_inj in H0. subst es0.
  intros evs k. rewrite Hany, Hrun. reflexivity.
Qed.

(** X6: a directory whose name has a supported extension passes both
    checks of [encode_image], which then fails to open it; [main] does not
    catch that error: the script ends with it, without the error line and
    before any client is built. *)
Theorem vision_main_directory :
  forall w prog image_path rest,
    argv w = prog :: image_path :: rest ->
    fs w image_path = Some Dir ->
    supported (extension image_path) = true ->
    main w =
      (Raise (Exn IsADirectoryError
                ("[Errno 21] Is a directory: '" ++ image_path ++ "'")),
       advance w
         [Stdout (("🔷 AWS Bedrock - Vision/Image Processing" ++ nl) ++ nl);
          Stdout (("Loading image: " ++ image_path) ++ nl);
          OpenRead image_path] 0).
Proof.
  intros w prog image_path rest Hargv Hdir Hext.
  destruct (media_types_supported _ Hext) as (media_type & Hget & _).
  assert (Hrun : encode_image image_path w =
                 (Raise (Exn IsADirectoryError
                           ("[Errno 21] Is a directory: '" ++ image_path ++ "'")),
                  advance w [OpenRead image_path] 0)).
  { rewrite encode_image_run, (exists_when_designated w image_path Dir media_type Hdir Hget).
    now rewrite Hget, Hdir. }
  pose proof (encode_image_anywhere image_path w _ _ Hrun) as Hany.
  unfold main. rewrite bind_run. unfold sys_argv. rewrite Hargv.
  cbn [List.length Nat.ltb Nat.leb nth_error].
  run_prims. rewrite bind_run. unfold try_ at 1. rewrite Hany.
  reflexivity.
Qed.

(** X8: the [except] clause of [main] covers [encode_image] only: whatever
    the remote call raises, a [ValueError] or a [FileNotFoundError]
    included, ends the script as it is, after the file was read, the client
    built and the one request issued, and without the error line. *)
Theorem vision_main_remote_error :
  forall w prog image_path rest data media_type e,
    argv w = prog :: image_path :: rest ->
    fs w image_path = Some (File data) ->
    dict_get (extension image_path) media_types = Some media_type ->
    on_create (remote w) (ncalls w) (request (standard_b64encode data) media_type)
      = Raise e ->
    main w =
      (Raise e,
       advance w
         [Stdout (("🔷 AWS Bedrock - Vision/Image Processing" ++ nl) ++ nl);
          Stdout (("Loading image: " ++ image_path) ++ nl);
          OpenRead image_path;
          NewClient (Bedrock "us-west-2");
          Stdout (("Analyzing image with Claude..." ++ nl) ++ nl);
          MessagesCreate (request (standard_b64encode data) media_type)] 1).
Proof.
  intros w prog image_path rest data media_type e Hargv Hfile Hget Hcall.
  assert (Hrun : encode_image image_path w =
                 (Return (standard_b64encode data, media_type),
                  advance w [OpenRead image_path] 0)).
  { rewrite encode_image_run,
      (exists_when_designated w image_path (File data) media_type Hfile Hget).
    now rewrite Hget, Hfile. }
  pose proof (encode_image_anywhere image_path w _ _ Hrun) as Hany.
  unfold main. rewrite bind_run. unfold sys_argv. rewrite Hargv.
  cbn [List.length Nat.ltb Nat.leb nth_error].
  run_prims. rewrite bind_run. unfold try_ at 1. rewrite Hany.
  unfold AnthropicBedrock. rewrite !bind_run, emit_run. unfold ret at 1.
  cbv beta iota. run_prims. rewrite bind_run, messages_create_run.
  cbn [remote ncalls advance]. rewrite Nat.add_0_r, Hcall, advance_advance.
  reflexivity.
Qed.

End VisionExtras.

Section VisionSuccess.
Import Py Anthropic Script bedrock_vision.
Local Open Scope script_scope.

Lemma encode_image_loaded w image_path data media_type :
  fs w image_path = Some (File data) ->
  dict_get (extension image_path) media_types = Some media_type ->
  encode_image image_path w =
    (Return (standard_b64encode data, media_type), advance w [OpenRead image_path] 0).
Proof.
  intros Hfile Hget.
  rewrite encode_image_run,
    (exists_when_designated w image_path (File data) media_type Hfile Hget).
  now rewrite Hget, Hfile.
Qed.

Lemma encode_image_returns w image_path image_data media_type :
  fst (encode_image image_path w) = Return (image_data, media_type) ->
  exists data,
    fs w image_path = Some (File data) /\
    dict_get (extension image_path) media_types = Some media_type /\
    image_data = standard_b64encode data.
Proof.
  rewrite encode_image_run.
  destruct (exists_at w image_path); [|discriminate].
  destruct (dict_get (extension image_path) media_types) as [mt|]; [|discriminate].
  destruct (fs w image_path) as [[data|]|]; try discriminate.
  cbn [fst]. intros H. injection H as <- <-. now exists data.
Qed.

(** X7: the vision script ends normally exactly when it was given a path
    to an existing file with an extension of the table and the service
    answered the request made of that file with a message that starts with
    a text block. *)
Theorem vision_main_succeeds_iff :
  forall w,
    fst (main w) = Return tt <->
    exists prog image_path rest data media_type response text blocks,
      argv w = prog :: image_path :: rest /\
      fs w image_path = Some (File data) /\
      dict_get (extension image_path) media_types = Some media_type /\
      on_create (remote w) (ncalls w) (request (standard_b64encode data) media_type)
        = Return response /\
      response_content response = TextBlock text :: blocks.
Proof.
  intros w. split.
  - intros Hok.
    destruct (argv w) as [|prog [|image_path rest]] eqn:Hargv.
    + unfold main in Hok. rewrite bind_run in Hok. unfold sys_argv in Hok.
      rewrite Hargv in Hok. cbn [List.length Nat.ltb Nat.leb] in Hok.
      revert Hok. run_prims. discriminate.
    + unfold main in Hok. rewrite bind_run in Hok. unfold sys_argv in Hok.
      rewrite Hargv in Hok. cbn [List.length Nat.ltb Nat.leb] in Hok.
      revert Hok. run_prims. discriminate.
    + destruct (vision_main_run prog image_path rest w Hargv)
        as (es & _ & _ & Hmain).
      rewrite Hmain in Hok. cbv zeta in Hok.
      destruct (fst (encode_image image_path w)) as [[image_data media_type] | e]
        eqn:Henc.
      * apply encode_image_returns in Henc as (data & Hfile & Hget & ->).
        destruct (on_create (remote w) (ncalls w)
                    (request (standard_b64encode data) media_type))
          as [response | e] eqn:Hcall; [|discriminate Hok].
        destruct (response_content response) as [|[text | id tool input] blocks]
          eqn:Hcontent; try discriminate Hok.
        exists prog, image_path, rest, data, media_type, response, text, blocks.
        auto.
      * destruct (handles e [FileNotFoundError; ValueError]); discriminate Hok.
  - intros (prog & image_path & rest & data & media_type & response & text & blocks
            & Hargv & Hfile & Hget & Hcall & Hcontent).
    destruct (vision_main_run prog image_path rest w Hargv) as (es & _ & _ & Hmain).
    rewrite Hmain. cbv zeta.
    rewrite (encode_image_loaded w image_path data media_type Hfile Hget).
    cbn [fst]. now rewrite Hcall, Hcontent.
Qed.

(** X9: the one request of the vision script carries the standard base64
    text of the file and the media type of its extension, in an image
    block followed by the fixed question; no other client or request is
    made. *)
Theorem vision_main_sends_image :
  forall w prog image_path rest data media_type,
    argv w = prog :: image_path :: rest ->
    fs w image_path = Some (File data) ->
    dict_get (extension image_path) media_types = Some media_type ->
    network (since w (snd (main w))) =
      [ NewClient (Bedrock "us-west-2");
        MessagesCreate
          {| model := "global.anthropic.claude-sonnet-4-5-20250929-v1:0";
             max_tokens := 512;
             system := None;
             messages :=
               [ {| role := user;
                    content := Blocks
                      [ ImageParam "base64" media_type (standard_b64encode data);
                        TextParam "Describe this image in detail. What do you see? What are the main elements?" ] |} ] |} ]
    /\ ncalls (snd (main w)) = S (ncalls w).
Proof.
  intros w prog image_path rest data media_type Hargv Hfile Hget.
  destruct (vision_main_run prog image_path rest w Hargv) as (es & _ & Hany & Hmain).
  pose proof (encode_image_loaded w image_path data media_type Hfile Hget) as Hrun.
  pose proof (Hany [] 0%nat) as H0. rewrite advance_nothing, Hrun in H0.
  apply (f_equal snd) in H0. cbn [fst snd app] in H0.
  apply advance_events_inj in H0. subst es.
  rewrite Hmain. cbv zeta. rewrite Hrun. cbn [fst].
  destruct (on_create (remote w) (ncalls w)
              (request (standard_b64encode data) media_type)) as [response | e].
  - destruct (response_content response) as [|[text | id tool input] blocks];
      cbn [snd]; rewrite since_advance; (split; [reflexivity|]);
      cbn [ncalls advance]; lia.
  - cbn [snd]. rewrite since_advance. split; [reflexivity|].
    cbn [ncalls advance]. lia.
Qed.

End VisionSuccess.

Section VisionEdges.
Import Py Anthropic Script bedrock_vision.
Local Open Scope script_scope.

(** X10: an existing path whose last component has no dot after its first
    character (no suffix at all, or a hidden file such as [.png]) has the
    empty extension, and [encode_image] rejects it as unsupported without
    opening it. *)
Theorem encode_image_no_suffix :
  forall dir c rest w,
    dir = "" \/ (exists a, dir = (a ++ "/")%string) ->
    occurs "/" (String c rest) = false ->
    occurs "." rest = false ->
    is_component (String c rest) = true ->
    exists_at w (dir ++ String c rest) = true ->
    extension (dir ++ String c rest) = "" /\
    encode_image (dir ++ String c rest) w =
      (Raise (Exn ValueError "Unsupported image type: "), w).
Proof.
  intros dir c rest w Hdir Hslash Hdot Hcomp Hex.
  assert (Hext : extension (dir ++ String c rest) = "").
  { unfold extension, suffix.
    rewrite (name_of_last_component dir (String c rest) Hdir Hslash Hcomp).
    cbn [suffix_of_name]. now rewrite (from_last_dot_no_dot rest Hdot). }
  split; [exact Hext|].
  rewrite encode_image_run, Hex, Hext. reflexivity.
Qed.

Lemma vision_main_directory_witness :
  main (Samples.on_disk (fun _ => Return Samples.answer) ["bedrock_vision.py"; "album.png"]) =
    (Raise (Exn IsADirectoryError "[Errno 21] Is a directory: 'album.png'"),
     advance (Samples.on_disk (fun _ => Return Samples.answer)
                ["bedrock_vision.py"; "album.png"])
       [Stdout (("🔷 AWS Bedrock - Vision/Image Processing" ++ nl) ++ nl);
        Stdout (("Loading image: " ++ "album.png") ++ nl);
        OpenRead "album.png"] 0).
Proof.
  apply (vision_main_directory
           (Samples.on_disk (fun _ => Return Samples.answer)
              ["bedrock_vision.py"; "album.png"])
           "bedrock_vision.py" "album.png" []); reflexivity.
Defined.

Lemma vision_main_remote_error_witness :
  fst (main (Samples.on_disk (fun _ => Raise (Exn ValueError "Invalid request"))
              ["bedrock_vision.py"; "scan.jpeg"])) =
    Raise (Exn ValueError "Invalid request") /\
  network (trace (snd (main (Samples.on_disk
                               (fun _ => Raise (Exn ValueError "Invalid request"))
                               ["bedrock_vision.py"; "scan.jpeg"])))) =
    [NewClient (Bedrock "us-west-2"); MessagesCreate (request "/9j/" "image/jpeg")].
Proof.
  rewrite (vision_main_remote_error
             (Samples.on_disk (fun _ => Raise (Exn ValueError "Invalid request"))
                ["bedrock_vision.py"; "scan.jpeg"])
             "bedrock_vision.py" "scan.jpeg" [] [xff; xd8; xff] "image/jpeg"
             (Exn ValueError "Invalid request") eq_refl eq_refl eq_refl eq_refl).
  split; reflexivity.
Defined.

Lemma vision_main_sends_image_witness :
  network (since (Samples.on_disk (fun _ => Return Samples.answer)
                    ["bedrock_vision.py"; "scan.jpeg"])
             (snd (main (Samples.on_disk (fun _ => Return Samples.answer)
                           ["bedrock_vision.py"; "scan.jpeg"])))) =
    [NewClient (Bedrock "us-west-2"); MessagesCreate (request "/9j/" "image/jpeg")].
Proof.
  exact (proj1 (vision_main_sends_image
                  (Samples.on_disk (fun _ => Return Samples.answer)
                     ["bedrock_vision.py"; "scan.jpeg"])
                  "bedrock_vision.py" "scan.jpeg" [] [xff; xd8; xff] "image/jpeg"
                  eq_refl eq_refl eq_refl)).
Defined.

Lemma encode_image_no_suffix_witness :
  encode_image "pics/.png" (Samples.on_disk (fun _ => Return Samples.answer) []) =
    (Raise (Exn ValueError "Unsupported image type: "),
     Samples.on_disk (fun _ => Return Samples.answer) [])
  /\
  encode_image "README" (Samples.on_disk (fun _ => Return Samples.answer) []) =
    (Raise (Exn ValueError "Unsupported image type: "),
     Samples.on_disk (fun _ => Return Samples.answer) []).
Proof.
  split.
  - apply (proj2 (encode_image_no_suffix "pics/" "." "png"
                    (Samples.on_disk (fun _ => Return Samples.answer) [])
                    (or_intror (ex_intro _ "pics" eq_refl))
                    eq_refl eq_refl eq_refl eq_refl)).
  - apply (proj2 (encode_image_no_suffix "" "R" "EADME"
                    (Samples.on_disk (fun _ => Return Samples.answer) [])
                    (or_introl eq_refl) eq_refl eq_refl eq_refl eq_refl)).
Defined.

End VisionEdges.

(** ** bedrock_conversation: requests, display and the interactive loop *)

Section ChatExtras.
Import Py Anthropic Script bedrock_conversation.
Local Open Scope script_scope.

(** X11: whatever the service answers, [chat] issues exactly one request,
    leaves the client, the model and the system prompt of the session as
    they were, and only appends to the history: the user message, followed
    by the reply when it returns one. *)
Theorem chat_outcome :
  forall user_message s w,
    exists r s',
      chat user_message (s, w) =
        (r, (s', advance w [MessagesCreate (chat_request s user_message)] 1)) /\
      client s' = client s /\
      session_model s' = session_model s /\
      system_prompt s' = system_prompt s /\
      match r with
      | Return reply =>
          conversation_history s' =
            (conversation_history s ++
             [said user user_message; said assistant reply])%list
      | Raise _ =>
          conversation_history s' =
            (conversation_history s ++ [said user user_message])%list
      end.
Proof.
  intros user_message s w. rewrite chat_run. cbv zeta.
  destruct (on_create (remote w) (ncalls w) (chat_request s user_message))
    as [response | e].
  - destruct (response_content response) as [|[text | id tool input] blocks];
      do 2 eexists; (split; [reflexivity|]); cbn; auto.
  - do 2 eexists. split; [reflexivity|]. cbn. auto.
Qed.

(** X12: when the answer of the service does not start with a text block,
    [chat] raises ([IndexError] for an answer without content,
    [AttributeError] for one that starts with a tool call) and the history
    keeps the user message without a reply to it. *)
Theorem chat_malformed_response :
  forall user_message s w response,
    on_create (remote w) (ncalls w) (chat_request s user_message) = Return response ->
    (forall text blocks, response_content response <> TextBlock text :: blocks) ->
    exists e,
      chat user_message (s, w) =
        (Raise e,
         (with_history s (conversation_history s ++ [said user user_message]),
          advance w [MessagesCreate (chat_request s user_message)] 1)) /\
      class_of e = match response_content response with
                   | [] => IndexError
                   | _ :: _ => AttributeError
                   end.
Proof.
  intros user_message s w response Hcall Hno.
  rewrite chat_run. cbv zeta. rewrite Hcall.
  destruct (response_content response) as [|[text | id tool input] blocks].
  - eexists. split; reflexivity.
  - now destruct (Hno text blocks).
  - eexists. split; reflexivity.
Qed.

Lemma chat_returns_state user_message s w reply st' :
  chat user_message (s, w) = (Return reply, st') ->
  st' = (with_history s (conversation_history s ++
                         [said user user_message; said assistant reply]),
         advance w [MessagesCreate (chat_request s user_message)] 1).
Proof.
  rewrite chat_run. cbv zeta.
  destruct (on_create (remote w) (ncalls w) (chat_request s user_message))
    as [response | e]; [|discriminate].
  destruct (response_content response) as [|[text | id tool input] blocks];
    try discriminate.
  intros H. now injection H as <- <-.
Qed.

(** X13: in a run of successful calls, the request of call [k + 1] carries
    the whole conversation so far: the history the session started with,
    the [k] exchanges made since, and the new user message, under the same
    model and system prompt; these are the only requests. *)
Theorem chats_replay_history :
  forall user_messages s w replies s' w',
    chats user_messages (s, w) = (Return replies, (s', w')) ->
    w' = advance w
           (map (fun k =>
                   MessagesCreate
                     {| model := session_model s;
                        max_tokens := 512;
                        system := Some (system_prompt s);
                        messages :=
                          conversation_history s ++
                          exchanges (firstn k (combine user_messages replies)) ++
                          [said user (nth k user_messages "")] |})
                (seq 0 (List.length user_messages)))
           (List.length user_messages).
Proof.
  induction user_messages as [|u us IH]; intros s w replies s' w' Hrun.
  - cbn in Hrun. injection Hrun as <- <- <-. cbn. now rewrite advance_nothing.
  - cbn [chats] in Hrun. rewrite bind_run in Hrun.
    destruct (chat u (s, w)) as [[reply | e] st1] eqn:Hchat; [|discriminate].
    apply chat_returns_state in Hchat. subst st1.
    rewrite bind_run in Hrun.
    match type of Hrun with context [chats us (?s1, ?w1)] =>
      destruct (chats us (s1, w1)) as [[rest | e] [s2 w2]] eqn:Hrest; [|discriminate];
      specialize (IH s1 w1 rest s2 w2 Hrest)
    end.
    injection Hrun as <- <- <-. rewrite IH, advance_advance.
    cbn [List.length seq map combine firstn exchanges nth app with_history
         conversation_history session_model system_prompt].
    rewrite <- seq_shift, map_map. f_equal. cbn [app]. f_equal.
    apply map_ext. intros k. cbn [firstn exchanges nth]. f_equal. f_equal.
    now rewrite <- app_assoc.
Qed.

End ChatExtras.

Section ShowHistory.
Import Py Anthropic Script bedrock_conversation.
Local Open Scope script_scope.

Variable repr_blocks : list BlockParam -> string.

Lemma in_world_run {A} (m : M World A) s w :
  in_world m (s, w) = (fst (m w), (s, snd (m w))).
Proof. unfold in_world. cbn [fst snd]. now destruct (m w). Qed.

Lemma only_prints_app t t' : only_prints (t ++ t') = only_prints t && only_prints t'.
Proof. apply forallb_app. Qed.

Lemma only_prints_network t : only_prints t = true -> network t = [].
Proof.
  induction t as [|ev t IH]; [reflexivity|]. cbn [only_prints forallb].
  destruct ev; try discriminate. cbn [andb]. exact IH.
Qed.

Lemma show_messages_run history :
  forall i w,
    exists evs,
      show_messages repr_blocks i history w = (Return tt, advance w evs 0) /\
      only_prints evs = true /\
      List.length evs = (2 * List.length history)%nat.
Proof.
  induction history as [|msg rest IH]; intros i w.
  - exists []. cbn. now rewrite advance_nothing.
  - cbn [show_messages]. run_prims.
    match goal with |- context [show_messages _ ?j rest ?w1] =>
      destruct (IH j w1) as (evs & Hrun & Hprints & Hlen)
    end.
    rewrite Hrun, advance_advance. eexists. split; [reflexivity|].
    cbn [app only_prints forallb andb List.length].
    split; [exact Hprints | lia].
Qed.

(** [show_history], run. *)
Lemma show_history_run :
  forall s w,
    exists evs,
      show_history repr_blocks (s, w) = (Return tt, (s, advance w evs 0)) /\
      only_prints evs = true /\
      network evs = [] /\
      List.length evs = (2 * List.length (conversation_history s) + 3)%nat.
Proof.
  intros s w. unfold show_history. rewrite bind_run. unfold self at 1.
  cbn [fst snd]. rewrite in_world_run. run_prims.
  match goal with |- context [bind (show_messages _ ?j _) _ ?w1] =>
    destruct (show_messages_run (conversation_history s) j w1)
      as (evs & Hrun & Hprints & Hlen)
  end.
  rewrite bind_run, Hrun. run_prims. cbn [fst snd].
  eexists. split; [reflexivity|].
  assert (Hall : only_prints
                   (Stdout ((nl ++ "📝 Conversation History:") ++ nl)
                    :: Stdout (times "=" 60 ++ nl)
                    :: evs ++ [Stdout ((nl ++ times "=" 60) ++ nl)]) = true).
  { cbn [only_prints forallb andb]. fold (only_prints (evs ++ [Stdout ((nl ++ times "=" 60) ++ nl)])).
    now rewrite only_prints_app, Hprints. }
  split; [exact Hall|]. split; [now apply only_prints_network|].
  cbn [List.length]. rewrite length_app, Hlen. cbn [List.length]. lia.
Qed.

(** X14: [show_history] only prints: the session and the request counter
    are as before, no client is built and no request issued; it writes
    two lines per entry of the history between a two-line header and a
    closing rule. *)
Theorem show_history_read_only :
  forall s w,
    exists evs,
      show_history repr_blocks (s, w) = (Return tt, (s, advance w evs 0)) /\
      only_prints evs = true /\
      network evs = [] /\
      List.length evs = (2 * List.length (conversation_history s) + 3)%nat.
Proof. exact show_history_run. Qed.

End ShowHistory.

Section ChatLoop.
Import Py Anthropic Script bedrock_conversation.
Local Open Scope script_scope.

Variable repr_blocks : list BlockParam -> string.





End ChatLoop.

Section ChatLoopExtras.
Import Py Anthropic Script bedrock_conversation.
Local Open Scope script_scope.

Variable repr_blocks : list BlockParam -> string.



End ChatLoopExtras.

Section ChatExtrasWitnesses.
Import Py Anthropic Script bedrock_conversation.

Lemma chat_malformed_response_witness :
  exists e,
    chat "Hello" (Samples.session, Samples.muted) =
      (Raise e,
       (with_history Samples.session [said user "Hello"],
        advance Samples.muted
          [MessagesCreate (chat_request Samples.session "Hello")] 1)) /\
    class_of e = IndexError.
Proof.
  apply (chat_malformed_response "Hello" Samples.session Samples.muted Samples.silent).
  - reflexivity.
  - intros text blocks. discriminate.
Defined.

Lemma chats_replay_history_witness :
  snd (snd (chats ["Hello"; "And then?"] (Samples.session, Samples.connected))) =
    advance Samples.connected
      [ MessagesCreate
          {| model := "global.anthropic.claude-sonnet-4-5-20250929-v1:0";
             max_tokens := 512;
             system := Some "You are a helpful assistant. Be concise and clear in your responses.";
             messages := [said user "Hello"] |};
        MessagesCreate
          {| model := "global.anthropic.claude-sonnet-4-5-20250929-v1:0";
             max_tokens := 512;
             system := Some "You are a helpful assistant. Be concise and clear in your responses.";
             messages := [said user "Hello";
                          said assistant "Qubits hold superpositions.";
                          said user "And then?"] |} ] 2.
Proof.
  exact (chats_replay_history ["Hello"; "And then?"] Samples.session Samples.connected
           ["Qubits hold superpositions."; "Qubits hold superpositions."]
           (fst (snd (chats ["Hello"; "And then?"] (Samples.session, Samples.connected))))
           (snd (snd (chats ["Hello"; "And then?"] (Samples.session, Samples.connected))))
           eq_refl).
Defined.

End ChatExtrasWitnesses.

(** ** The streaming and the basic scripts *)

Section StreamingExtras.
Import Py Anthropic Script Streaming.
Local Open Scope script_scope.

Lemma written_cons text texts : written (text :: texts) = (written [text] ++ written texts)%list.
Proof. reflexivity. Qed.

(** X17: whatever events the stream delivers, and whether or not it gets
    through them, the consumer loop writes fragments in their order of
    arrival, each once and nothing else: what it wrote is a prefix of the
    delivered fragments, and all of them when the loop completes. *)
Theorem text_stream_writes_in_order :
  forall events current_snapshot w,
    exists r n,
      text_stream_events (fun text => print_end text "") events current_snapshot w =
        (r, advance w (written (firstn n (fragments events))) 0) /\
      (forall stream, r = Return stream ->
         firstn n (fragments events) = fragments events /\ pending stream = []).
Proof.
  induction events as [|ev events IH]; intros current_snapshot w.
  - exists (Return {| pending := []; snapshot := current_snapshot |}), 0%nat.
    cbn. rewrite advance_nothing. split; [reflexivity|].
    intros stream H. injection H as <-. now split.
  - cbn [text_stream_events].
    destruct (accumulate_event ev current_snapshot) as [m | e].
    + assert (Hskip : forall w',
                 fragments (ev :: events) = fragments events ->
                 exists r n,
                   text_stream_events (fun text => print_end text "") events (Some m) w' =
                     (r, advance w' (written (firstn n (fragments (ev :: events)))) 0) /\
                   (forall stream, r = Return stream ->
                      firstn n (fragments (ev :: events)) = fragments (ev :: events) /\
                      pending stream = [])).
      { intros w' Hsame. rewrite Hsame. apply IH. }
      destruct ev as [start | index block | index [text | json] | index | stop out | ];
        rewrite bind_run; try (unfold ret at 1; cbv beta iota; now apply Hskip).
      rewrite print_end_run. cbv beta iota.
      destruct (IH (Some m) (advance w (written [text]) 0)) as (r & n & Hrun & Hdone).
      exists r, (S n). cbn [fragments firstn].
      rewrite (written_cons text (firstn n (fragments events))).
      split; [rewrite Hrun, advance_advance; reflexivity|].
      intros stream Hstream. destruct (Hdone stream Hstream) as [Hall Hpending].
      split; [now rewrite Hall | exact Hpending].
    + exists (Raise e), 0%nat. cbn [firstn written map]. unfold raise.
      rewrite advance_nothing. split; [reflexivity | discriminate].
Qed.

(** X18: when the service refuses to open the stream, each streaming
    script ends with that error right after its request: nothing of a
    response and no token usage is printed. *)
Theorem streaming_main_open_failure :
  forall w e,
    (on_stream (remote w) (ncalls w) bedrock_streaming.request = Raise e ->
     bedrock_streaming.main w =
       (Raise e,
        advance w
          [NewClient (Bedrock "us-west-2");
           Stdout (("🔷 AWS Bedrock - Streaming Response" ++ nl) ++ nl);
           Stdout (("Prompt: " ++ bedrock_streaming.prompt ++ nl) ++ nl);
           Stdout (("Response (streaming):" ++ nl) ++ nl);
           MessagesStream bedrock_streaming.request] 1))
    /\
    (on_stream (remote w) (ncalls w) vertex_ai_streaming.request = Raise e ->
     vertex_ai_streaming.main w =
       (Raise e,
        advance w
          [NewClient (Vertex "YOUR_PROJECT_ID" "global");
           Stdout (("🔵 Google Vertex AI - Streaming Response" ++ nl) ++ nl);
           Stdout (("Prompt: " ++ vertex_ai_streaming.prompt ++ nl) ++ nl);
           Stdout (("Response (streaming):" ++ nl) ++ nl);
           MessagesStream vertex_ai_streaming.request] 1)).
Proof.
  intros w e. split; intros Hstream.
  - unfold bedrock_streaming.main, AnthropicBedrock.
    rewrite !bind_run, emit_run. unfold ret at 1. cbv beta iota.
    run_prims. rewrite bind_run. unfold messages_stream.
    cbn [remote ncalls advance]. rewrite Nat.add_0_r, Hstream.
    now rewrite log_advance, count_call_advance, !advance_advance.
  - unfold vertex_ai_streaming.main, AnthropicVertex.
    rewrite !bind_run, emit_run. unfold ret at 1. cbv beta iota.
    run_prims. rewrite bind_run. unfold messages_stream.
    cbn [remote ncalls advance]. rewrite Nat.add_0_r, Hstream.
    now rewrite log_advance, count_call_advance, !advance_advance.
Qed.

End StreamingExtras.


Section BasicScripts.
Import Py Anthropic Script.
Local Open Scope script_scope.

(** X19: each basic script builds one client and issues one request, the
    fixed question, whatever happens; it ends normally when the answer
    starts with a text block, and otherwise with the error of the remote
    call or of reading the missing text, nothing being caught. *)
Theorem basic_main_one_request :
  forall w,
    (exists evs,
       bedrock_basic.main w =
         (first_text_outcome (on_create (remote w) (ncalls w) bedrock_basic.request),
          advance w evs 1) /\
       network evs =
         [NewClient (Bedrock "us-west-2"); MessagesCreate bedrock_basic.request])
    /\
    (exists evs,
       vertex_ai_basic.main w =
         (first_text_outcome (on_create (remote w) (ncalls w) vertex_ai_basic.request),
          advance w evs 1) /\
       network evs =
         [NewClient (Vertex "YOUR_PROJECT_ID" "global");
          MessagesCreate vertex_ai_basic.request]).
Proof.
  intros w. split.
  - unfold bedrock_basic.main, AnthropicBedrock.
    rewrite !bind_run, emit_run. unfold ret at 1. cbv beta iota.
    run_prims. rewrite bind_run, messages_create_run.
    cbn [remote ncalls advance]. rewrite Nat.add_0_r, advance_advance.
    unfold first_text_outcome, first_text.
    destruct (on_create (remote w) (ncalls w) bedrock_basic.request) as [m | e].
    + rewrite bind_run.
      destruct (response_content m) as [|[text | id tool input] blocks];
        cbn [raise ret]; run_prims; rewrite ?advance_advance;
        eexists; split; reflexivity.
    + eexists; split; reflexivity.
  - unfold vertex_ai_basic.main, AnthropicVertex.
    rewrite !bind_run, emit_run. unfold ret at 1. cbv beta iota.
    run_prims. rewrite bind_run, messages_create_run.
    cbn [remote ncalls advance]. rewrite Nat.add_0_r, advance_advance.
    unfold first_text_outcome, first_text.
    destruct (on_create (remote w) (ncalls w) vertex_ai_basic.request) as [m | e].
    + rewrite bind_run.
      destruct (response_content m) as [|[text | id tool input] blocks];
        cbn [raise ret]; run_prims; rewrite ?advance_advance;
        eexists; split; reflexivity.
    + eexists; split; reflexivity.
Qed.

Lemma streaming_main_open_failure_witness :
  bedrock_streaming.main Samples.answering =
    (Raise (Exn APIError "Connection error."),
     advance Samples.answering
       [NewClient (Bedrock "us-west-2");
        Stdout (("🔷 AWS Bedrock - Streaming Response" ++ nl) ++ nl);
        Stdout (("Prompt: " ++ bedrock_streaming.prompt ++ nl) ++ nl);
        Stdout (("Response (streaming):" ++ nl) ++ nl);
        MessagesStream bedrock_streaming.request] 1)
  /\
  fst (vertex_ai_streaming.main Samples.answering) =
    Raise (Exn APIError "Connection error.").
Proof.
  split.
  - exact (proj1 (streaming_main_open_failure Samples.answering
                    (Exn APIError "Connection error.")) eq_refl).
  - now rewrite (proj2 (streaming_main_open_failure Samples.answering
                          (Exn APIError "Connection error.")) eq_refl).
Defined.

End BasicScripts.
